(** * The Guild Wars 2 presence tracker of the TeamSpeak 3 plugin

    A shallow embedding of [src/plugin.cpp]: the Mumble Link polling loop
    [mumbleLinkCheckLoop], the TeamSpeak callbacks that maintain the cache of
    remote records, and the plugin command handler.

    Conventions.
    - [time_t] values and the two time thresholds are integers ([Z], seconds);
      [difftime (a, b) >= thr] is [thr <=? a - b].
    - C++ [double] is Rocq's primitive binary64 [float]; [a >= b] on doubles
      is [PrimFloat.leb b a].
    - Every call the loop makes into code outside [plugin.cpp] (the Mumble
      Link reader, the map, world-name and waypoint lookups, [time], the
      TeamSpeak client) is an input of the iteration, one field per call site.
    - Calls that leave the plugin ([sendGW2Info], [requestInfoUpdate], the
      update check) are recorded as a list of [Effect]s.  [debuglog] output
      is not part of the model. *)

From Stdlib Require Import ZArith Bool List Lia DecimalString.
From Stdlib Require Import Floats.PrimFloat.
From stdpp Require Import gmap.
From Stdlib Require Import String Ascii.
Import ListNotations.
Open Scope string_scope.
Open Scope Z_scope.

(** ** Data declared in the headers the loop includes *)

(** Modelled from the spec: [Gw2Api::Vector2D] of gw2mathutils.h, a tuple of
    two doubles. *)
Record Vector2D : Type := mkVector2D { v2_x : float; v2_y : float }.

(** Modelled from the spec: [Gw2Api::Vector3D] of gw2mathutils.h, a tuple of
    three doubles. *)
Record Vector3D : Type := mkVector3D { v3_x : float; v3_y : float; v3_z : float }.

(** Modelled from the spec: the default-constructed [Gw2Api::Vector2D()],
    both coordinates zero. *)
Definition Vector2D_default : Vector2D := mkVector2D 0%float 0%float.

(** Modelled from the spec: an axis-aligned rectangle ([map_rect],
    [continent_rect]) given by two corners. *)
Record Rect : Type := mkRect { rect_lo : Vector2D; rect_hi : Vector2D }.

(** [Gw2Api::MumbleLink::MumbleIdentity]: the fields the loop reads
    (plugin.cpp lines 422-427). *)
Record MumbleIdentity : Type := mkMumbleIdentity {
  name : string;
  profession : Z;
  map_id : Z;
  world_id : Z;
  team_color_id : Z;
  commander : bool
}.

(** [Gw2Api::MapEntry]: the fields the loop reads (lines 435-439, 470). *)
Record MapEntry : Type := mkMapEntry {
  map_name : string;
  region_id : Z;
  region_name : string;
  continent_id : Z;
  continent_name : string;
  map_rect : Rect;
  continent_rect : Rect
}.

(** An entry of [WorldNamesRootEntry::world_names] (line 451). *)
Record WorldNameEntry : Type := mkWorldNameEntry { wn_name : string }.

(** [Gw2Api::PointOfInterestEntry]: the fields the loop reads (lines 478-484). *)
Record PointOfInterestEntry : Type := mkPointOfInterestEntry {
  poi_id : Z;
  poi_name : string;
  coord : Vector2D
}.

(** [Gw2Info], the local presence record: the fields [plugin.cpp] assigns. *)
Record Gw2Info : Type := mkGw2Info {
  characterName : string;
  info_profession : Z;
  mapId : Z;
  mapName : string;
  regionId : Z;
  regionName : string;
  continentId : Z;
  continentName : string;
  worldId : Z;
  worldName : string;
  teamColorId : Z;
  info_commander : bool;
  characterContinentPosition : Vector2D;
  waypointId : Z;
  waypointName : string;
  waypointContinentPosition : Vector2D
}.

(** Modelled from the spec: [Gw2Info::clear] of gw2info.h is not part of
    [plugin.cpp]; the spec has the cleared record with all numeric fields zero
    and all strings empty. *)
Definition Gw2Info_clear : Gw2Info :=
  {| characterName := ""; info_profession := 0; mapId := 0; mapName := "";
     regionId := 0; regionName := ""; continentId := 0; continentName := "";
     worldId := 0; worldName := ""; teamColorId := 0; info_commander := false;
     characterContinentPosition := Vector2D_default;
     waypointId := 0; waypointName := "";
     waypointContinentPosition := Vector2D_default |}.

(** The operations of gw2mathutils.h, mumblelink.h and gw2api.h that the loop
    calls and whose bodies are not in [plugin.cpp]. *)
Class Gw2Api : Type := {
  (** [MumbleIdentity::operator!=] *)
  identity_ne : MumbleIdentity -> MumbleIdentity -> bool;
  (** [Vector3D::operator!=] *)
  vector3_ne : Vector3D -> Vector3D -> bool;
  (** [Vector3D::toVector2D] *)
  toVector2D : Vector3D -> Vector2D;
  (** [Vector2D::getDistance] *)
  getDistance : Vector2D -> Vector2D -> float;
  (** [Gw2Position(p, Gw2Position::Mumble, mapId, map_rect, continent_rect)
      .toContinentPosition().position] *)
  toContinentPosition : Vector3D -> Z -> Rect -> Rect -> Vector2D
}.

(** [std::to_string] on an integer: decimal digits, with a leading minus. *)
Definition to_string (n : Z) : string := NilZero.string_of_int (Z.to_int n).

(** ** Configuration and effects *)

(** The three thresholds of globals.h the loop reads. *)
Record Globals : Type := mkGlobals {
  onlineStateTransmissionThreshold : Z;
  locationTransmissionThreshold : Z;
  distanceTransmissionThreshold : float
}.

Inductive PluginCommandTarget : Type :=
| PluginCommandTarget_CURRENT_CHANNEL
| PluginCommandTarget_SERVER
| PluginCommandTarget_CLIENT
| PluginCommandTarget_CURRENT_CHANNEL_SUBSCRIBED_CLIENTS.

(** What the plugin asks of its collaborators. *)
Inductive Effect : Type :=
| SendGW2Info (serverConnectionHandlerID : Z) (info : Gw2Info)
              (target : PluginCommandTarget) (targetID : option Z)
| RequestInfoUpdate (serverConnectionHandlerID : Z) (itemType : Z) (itemID : Z)
| CheckForUpdates.

(** Is the effect a transmission of a presence record? *)
Definition isSend (e : Effect) : bool :=
  match e with SendGW2Info _ _ _ _ => true | _ => false end.

(** ** The polling loop *)

(** The local variables of [mumbleLinkCheckLoop] that live across iterations
    (lines 394-402), and the static [gw2Info] the loop writes. *)
Record LoopState : Type := mkLoopState {
  lastTransmissionTime : Z;
  lastOffline : Z;
  linked : bool;
  prevIsOnline : bool;
  prevIdentity : MumbleIdentity;
  prevAvatarPosition : Vector3D;
  prevDistancePosition : Vector2D;
  gw2Info : Gw2Info
}.

(** What one iteration reads from outside: one field per call site. *)
Record Tick : Type := mkTick {
  isActive : bool;                      (* line 406 *)
  isGW2 : bool;                         (* line 406 *)
  time_link : Z;                        (* time(NULL), line 410 *)
  getIdentity : MumbleIdentity;         (* line 416 *)
  getAvatarPosition : Vector3D;         (* line 417 *)
  getMap_identity : Z -> option MapEntry;            (* getMap, line 434 *)
  getWorldNames : option (gmap Z WorldNameEntry);    (* line 450 *)
  time_identity : Z;                    (* time(NULL), line 456 *)
  getMap_position : Z -> option MapEntry;            (* getMap, line 468 *)
  getClosestWaypoint : Vector2D -> Z -> option PointOfInterestEntry; (* line 477 *)
  time_position : Z;                    (* time(NULL), line 491 *)
  time_offline : Z;                     (* time(NULL), line 503 *)
  time_unlink : Z;                      (* time(NULL), line 507 *)
  time_send : Z;                        (* time(NULL), line 518 *)
  currentServerConnectionHandlerID : Z  (* line 519 *)
}.

(** [newIsOnline] of line 406. *)
Definition rawOnline (tk : Tick) : bool := isActive tk && isGW2 tk.

(** Lines 422-454: the record after an identity change. *)
Definition identityUpdate (tk : Tick) (newIdentity : MumbleIdentity)
    (info : Gw2Info) : Gw2Info :=
  let mid := map_id newIdentity in
  let wid := world_id newIdentity in
  let m :=
    match getMap_identity tk mid with
    | Some e => (map_name e, region_id e, region_name e, continent_id e,
                 continent_name e)
    | None => ("Map " ++ to_string mid, 0, "Unknown region", 0,
               "Unknown continent")
    end in
  let w :=
    match getWorldNames tk with
    | Some names =>
        match names !! wid with
        | Some e => wn_name e
        | None => "World " ++ to_string wid
        end
    | None => "World " ++ to_string wid
    end in
  let '(mname, rid, rname, cid, cname) := m in
  {| characterName := name newIdentity;
     info_profession := profession newIdentity;
     mapId := mid; mapName := mname;
     regionId := rid; regionName := rname;
     continentId := cid; continentName := cname;
     worldId := wid; worldName := w;
     teamColorId := team_color_id newIdentity;
     info_commander := commander newIdentity;
     characterContinentPosition := characterContinentPosition info;
     waypointId := waypointId info;
     waypointName := waypointName info;
     waypointContinentPosition := waypointContinentPosition info |}.

(** Line 456: the identity change marks the record for transmission. *)
Definition identityGate (g : Globals) (tk : Tick) (st : LoopState) : bool :=
  locationTransmissionThreshold g <=? time_identity tk - lastTransmissionTime st.

(** Lines 467-472: the continent position after a position change. *)
Definition continentPositionUpdate `{Gw2Api} (tk : Tick)
    (newAvatarPosition : Vector3D) (info : Gw2Info) : Vector2D :=
  match getMap_position tk (mapId info) with
  | Some e => toContinentPosition newAvatarPosition (mapId info)
                (map_rect e) (continent_rect e)
  | None => characterContinentPosition info
  end.

(** Lines 463-489: the record after a position change. *)
Definition positionUpdate `{Gw2Api} (tk : Tick) (newAvatarPosition : Vector3D)
    (info : Gw2Info) : Gw2Info :=
  let pos := continentPositionUpdate tk newAvatarPosition info in
  let '(wid, wname, wpos) :=
    match getClosestWaypoint tk pos (mapId info) with
    | Some w =>
        (poi_id w,
         if String.eqb (poi_name w) "" then "Waypoint " ++ to_string (poi_id w)
         else poi_name w,
         coord w)
    | None => (0, "", Vector2D_default)
    end in
  {| characterName := characterName info;
     info_profession := info_profession info;
     mapId := mapId info; mapName := mapName info;
     regionId := regionId info; regionName := regionName info;
     continentId := continentId info; continentName := continentName info;
     worldId := worldId info; worldName := worldName info;
     teamColorId := teamColorId info;
     info_commander := info_commander info;
     characterContinentPosition := pos;
     waypointId := wid; waypointName := wname;
     waypointContinentPosition := wpos |}.

(** Lines 491-492: the position change marks the record for transmission. *)
Definition positionGate `{Gw2Api} (g : Globals) (tk : Tick) (st : LoopState)
    (newAvatarPosition : Vector3D) : bool :=
  (locationTransmissionThreshold g <=? time_position tk - lastTransmissionTime st)
  && PrimFloat.leb (distanceTransmissionThreshold g)
       (getDistance (toVector2D newAvatarPosition) (prevDistancePosition st)).

(** Line 410: the condition under which [linked] is set. *)
Definition linkGate (g : Globals) (tk : Tick) (st : LoopState) : bool :=
  negb (prevIsOnline st)
  && (onlineStateTransmissionThreshold g <=? time_link tk - lastOffline st).

(** Line 503: the offline time remembered by an offline iteration. *)
Definition offlineStamp (tk : Tick) (st : LoopState) : Z :=
  if prevIsOnline st then time_offline tk else lastOffline st.

(** Line 507: the condition under which the tracker unlinks. *)
Definition unlinkGate (g : Globals) (tk : Tick) (st : LoopState) : bool :=
  linked st
  && (onlineStateTransmissionThreshold g <=? time_unlink tk - offlineStamp tk st).

(** Lines 409-515: the body of the loop up to the transmission; the result is
    the state before line 517 and the flag [updated]. *)
Definition loopBody `{Gw2Api} (g : Globals) (tk : Tick) (st : LoopState)
    : LoopState * bool :=
  let newIsOnline := rawOnline tk in
  if newIsOnline then
    let linked1 := if linkGate g tk st then true else linked st in
    let newIdentity := getIdentity tk in
    let newAvatarPosition := getAvatarPosition tk in
    let '(info1, updated1) :=
      if identity_ne newIdentity (prevIdentity st)
      then (identityUpdate tk newIdentity (gw2Info st), identityGate g tk st)
      else (gw2Info st, false) in
    let '(info2, dist2, updated2) :=
      if vector3_ne newAvatarPosition (prevAvatarPosition st)
      then
        let info' := positionUpdate tk newAvatarPosition info1 in
        if positionGate g tk st newAvatarPosition
        then (info', toVector2D newAvatarPosition, true)
        else (info', prevDistancePosition st, updated1)
      else (info1, prevDistancePosition st, updated1) in
    ({| lastTransmissionTime := lastTransmissionTime st;
        lastOffline := 0;
        linked := linked1;
        prevIsOnline := newIsOnline;
        prevIdentity := newIdentity;
        prevAvatarPosition := newAvatarPosition;
        prevDistancePosition := dist2;
        gw2Info := info2 |}, updated2)
  else
    let lastOffline1 := offlineStamp tk st in
    let unlink := unlinkGate g tk st in
    ({| lastTransmissionTime := lastTransmissionTime st;
        lastOffline := lastOffline1;
        linked := if unlink then false else linked st;
        prevIsOnline := newIsOnline;
        prevIdentity := prevIdentity st;
        prevAvatarPosition := prevAvatarPosition st;
        prevDistancePosition := prevDistancePosition st;
        gw2Info := if unlink then Gw2Info_clear else gw2Info st |}, unlink).

(** Lines 517-520: the transmission of a record marked [updated]. *)
Definition transmit (tk : Tick) (r : LoopState * bool)
    : LoopState * list Effect :=
  let '(st, updated) := r in
  if updated then
    ({| lastTransmissionTime := time_send tk;
        lastOffline := lastOffline st;
        linked := linked st;
        prevIsOnline := prevIsOnline st;
        prevIdentity := prevIdentity st;
        prevAvatarPosition := prevAvatarPosition st;
        prevDistancePosition := prevDistancePosition st;
        gw2Info := gw2Info st |},
     [SendGW2Info (currentServerConnectionHandlerID tk) (gw2Info st)
        PluginCommandTarget_SERVER None])
  else (st, []).

(** One iteration of the [while] loop of [mumbleLinkCheckLoop]. *)
Definition loopIteration `{Gw2Api} (g : Globals) (tk : Tick) (st : LoopState)
    : LoopState * list Effect :=
  transmit tk (loopBody g tk st).

(** The loop run over the iterations' inputs; the effects in order. *)
Fixpoint mumbleLinkCheckLoop `{Gw2Api} (g : Globals) (ticks : list Tick)
    (st : LoopState) : LoopState * list Effect :=
  match ticks with
  | [] => (st, [])
  | tk :: rest =>
      let '(st1, out1) := loopIteration g tk st in
      let '(st2, out2) := mumbleLinkCheckLoop g rest st1 in
      (st2, (out1 ++ out2)%list)
  end.

(** The state at loop entry (lines 394-402); the default-constructed identity
    and avatar position come from headers outside [plugin.cpp]. *)
Definition initialState (identity0 : MumbleIdentity) (position0 : Vector3D)
    (info0 : Gw2Info) : LoopState :=
  {| lastTransmissionTime := 0;
     lastOffline := 0;
     linked := false;
     prevIsOnline := false;
     prevIdentity := identity0;
     prevAvatarPosition := position0;
     prevDistancePosition := Vector2D_default;
     gw2Info := info0 |}.

(** ** The cache of remote records and the TeamSpeak callbacks *)

(** [Gw2RemoteInfo]: a received record with the connection and the client it
    came from (line 338). *)
Record Gw2RemoteInfo : Type := mkGw2RemoteInfo {
  remote_info : Gw2Info;
  remote_serverConnectionHandlerID : Z;
  remote_clientID : Z
}.

(** Modelled from the spec: [Gw2RemoteInfoContainer] of gw2info.h is not part
    of [plugin.cpp]; the spec has a mapping keyed by (session, participant),
    at most one record per key. *)
Abbreviation Gw2RemoteInfoContainer := (gmap (Z * Z) Gw2RemoteInfo).

(** Modelled from the spec: [updateRemoteGW2Info], replace or insert under the
    record's own key. *)
Definition updateRemoteGW2Info (r : Gw2RemoteInfo)
    (c : Gw2RemoteInfoContainer) : Gw2RemoteInfoContainer :=
  <[(remote_serverConnectionHandlerID r, remote_clientID r) := r]> c.

(** Modelled from the spec: [removeRemoteGW2InfoRecord], evict one entry,
    nothing when absent. *)
Definition removeRemoteGW2InfoRecord (serverConnectionHandlerID clientID : Z)
    (c : Gw2RemoteInfoContainer) : Gw2RemoteInfoContainer :=
  delete (serverConnectionHandlerID, clientID) c.

(** Modelled from the spec: [removeAllRemoteGW2InfoRecords], evict every entry
    of a session. *)
Definition removeAllRemoteGW2InfoRecords (serverConnectionHandlerID : Z)
    (c : Gw2RemoteInfoContainer) : Gw2RemoteInfoContainer :=
  filter (fun kv : (Z * Z) * Gw2RemoteInfo =>
            fst (fst kv) <> serverConnectionHandlerID) c.

(** The statics of [plugin.cpp] the callbacks read and write (lines 39-43). *)
Record Plugin : Type := mkPlugin {
  plugin_gw2Info : Gw2Info;
  gw2RemoteInfoContainer : Gw2RemoteInfoContainer;
  infoDataType : Z;
  infoDataId : Z
}.

(** [enum ConnectStatus] of the TeamSpeak client library. *)
Inductive ConnectStatus : Type :=
| STATUS_DISCONNECTED
| STATUS_CONNECTING
| STATUS_CONNECTED
| STATUS_CONNECTION_ESTABLISHING
| STATUS_CONNECTION_ESTABLISHED.

(** [Commands::CommandType]: the enumerators the handler switches on; any
    other enumerator of commands.h is [CMD_other]. *)
Inductive CommandType : Type :=
| CMD_NONE
| CMD_GW2INFO
| CMD_REQUESTGW2INFO
| CMD_other.

(** The operations of commands.h and gw2info.h the command handler calls. *)
Class CommandsApi : Type := {
  (** [Commands::parseCommand]: the command's kind and its parameters *)
  parseCommand : string -> CommandType * list string;
  (** the record [Gw2RemoteInfo]'s constructor reads from the JSON text *)
  Gw2Info_fromJson : string -> Gw2Info
}.

Definition isspace (c : ascii) : bool :=
  let n := N_of_ascii c in ((9 <=? n) && (n <=? 13))%N || (n =? 32)%N.

Definition digit_of (c : ascii) : option Z :=
  let n := N_of_ascii c in
  if ((48 <=? n) && (n <=? 57))%N then Some (Z.of_N n - 48) else None.

Fixpoint atoi_digits (s : string) (acc : Z) : Z :=
  match s with
  | String c rest =>
      match digit_of c with
      | Some d => atoi_digits rest (10 * acc + d)
      | None => acc
      end
  | EmptyString => acc
  end.

Fixpoint atoi_skip (s : string) : string :=
  match s with
  | String c rest => if isspace c then atoi_skip rest else s
  | EmptyString => s
  end.

(** The C library's [atoi]: leading white space, an optional sign, decimal
    digits up to the first other character; out-of-range values are clamped
    to [INT_MIN], [INT_MAX] as the Microsoft runtime does. *)
Definition atoi (s : string) : Z :=
  let v :=
    match atoi_skip s with
    | String "-" rest => - atoi_digits rest 0
    | String "+" rest => atoi_digits rest 0
    | t => atoi_digits t 0
    end in
  Z.max (-2147483648) (Z.min 2147483647 v).

(** The cast [(anyID)] to the client library's 16-bit unsigned id. *)
Definition to_anyID (n : Z) : Z := n mod 65536.

(** Lines 357-359. *)
Definition updateInfoPanel (currentID : Z) (p : Plugin) : list Effect :=
  if (0 <? infoDataType p) && (0 <? infoDataId p)
  then [RequestInfoUpdate currentID (infoDataType p) (infoDataId p)]
  else [].

Definition setContainer (c : Gw2RemoteInfoContainer) (p : Plugin) : Plugin :=
  {| plugin_gw2Info := plugin_gw2Info p;
     gw2RemoteInfoContainer := c;
     infoDataType := infoDataType p;
     infoDataId := infoDataId p |}.

(** Lines 280-292.  [checkForUpdates] starts the plugin's update check (in a
    release build); it neither reads nor sends the presence record. *)
Definition ts3plugin_onConnectStatusChangeEvent (serverConnectionHandlerID : Z)
    (newStatus : ConnectStatus) (errorNumber : Z) (p : Plugin)
    : Plugin * list Effect :=
  match newStatus with
  | STATUS_DISCONNECTED =>
      (setContainer
         (removeAllRemoteGW2InfoRecords serverConnectionHandlerID
            (gw2RemoteInfoContainer p)) p, [])
  | STATUS_CONNECTION_ESTABLISHED => (p, [CheckForUpdates])
  | _ => (p, [])
  end.

(** Lines 294-297. *)
Definition ts3plugin_onClientKickFromServerEvent
    (serverConnectionHandlerID clientID : Z) (p : Plugin)
    : Plugin * list Effect :=
  (setContainer
     (removeRemoteGW2InfoRecord serverConnectionHandlerID clientID
        (gw2RemoteInfoContainer p)) p, []).

(** Lines 311-314. *)
Definition ts3plugin_onServerStopEvent (serverConnectionHandlerID : Z)
    (p : Plugin) : Plugin * list Effect :=
  (setContainer
     (removeAllRemoteGW2InfoRecords serverConnectionHandlerID
        (gw2RemoteInfoContainer p)) p, []).

(** Lines 325-354: the [switch] on the parsed command.  [currentID] is what
    [getCurrentServerConnectionHandlerID] returns inside [updateInfoPanel]. *)
Definition handleCommand `{CommandsApi} (currentID : Z)
    (serverConnectionHandlerID : Z) (commandType : CommandType)
    (commandParameters : list string) (p : Plugin) : Plugin * list Effect :=
  match commandType with
  | CMD_NONE => (p, [])
  | CMD_GW2INFO =>
      match commandParameters with
      | [p0; p1] =>
          let clientID := to_anyID (atoi p0) in
          let gw2RemoteInfo :=
            {| remote_info := Gw2Info_fromJson p1;
               remote_serverConnectionHandlerID := serverConnectionHandlerID;
               remote_clientID := clientID |} in
          let p' :=
            setContainer
              (updateRemoteGW2Info gw2RemoteInfo (gw2RemoteInfoContainer p)) p in
          (p', updateInfoPanel currentID p')
      | _ => (p, [])
      end
  | CMD_REQUESTGW2INFO =>
      match commandParameters with
      | [p0] =>
          let clientID := to_anyID (atoi p0) in
          (p, [SendGW2Info serverConnectionHandlerID (plugin_gw2Info p)
                 PluginCommandTarget_CLIENT (Some clientID)])
      | _ => (p, [])
      end
  | CMD_other => (p, [])
  end.

(** Lines 318-355. *)
Definition ts3plugin_onPluginCommandEvent `{CommandsApi} (currentID : Z)
    (serverConnectionHandlerID : Z) (pluginCommand : string) (p : Plugin)
    : Plugin * list Effect :=
  let '(commandType, commandParameters) := parseCommand pluginCommand in
  handleCommand currentID serverConnectionHandlerID commandType
    commandParameters p.

(** ** A reference implementation of the missing headers

    Used to run the loop and the handler on concrete inputs. *)

Definition MumbleIdentity_eqb (a b : MumbleIdentity) : bool :=
  String.eqb (name a) (name b) && (profession a =? profession b)
  && (map_id a =? map_id b) && (world_id a =? world_id b)
  && (team_color_id a =? team_color_id b)
  && Bool.eqb (commander a) (commander b).

Definition Vector3D_eqb (a b : Vector3D) : bool :=
  PrimFloat.eqb (v3_x a) (v3_x b) && PrimFloat.eqb (v3_y a) (v3_y b)
  && PrimFloat.eqb (v3_z a) (v3_z b).

(** Modelled from the spec: Euclidean distance in two dimensions. *)
Definition euclidean (a b : Vector2D) : float :=
  let dx := (v2_x a - v2_x b)%float in
  let dy := (v2_y a - v2_y b)%float in
  PrimFloat.sqrt (dx * dx + dy * dy)%float.

(** Modelled from the spec: the affine map from the map rectangle to the
    continent rectangle, vertical axis inverted, unit scale 1. *)
Definition affineToContinent (p : Vector3D) (mapId : Z) (mr cr : Rect)
    : Vector2D :=
  let sx := ((v2_x (rect_hi cr) - v2_x (rect_lo cr))
             / (v2_x (rect_hi mr) - v2_x (rect_lo mr)))%float in
  let sy := ((v2_y (rect_hi cr) - v2_y (rect_lo cr))
             / (v2_y (rect_hi mr) - v2_y (rect_lo mr)))%float in
  mkVector2D
    (v2_x (rect_lo cr) + (v3_x p - v2_x (rect_lo mr)) * sx)%float
    (v2_y (rect_lo cr) + (v2_y (rect_hi mr) - v3_z p) * sy)%float.

(** Modelled from the spec: structural inequality of identities, exact
    inequality of vectors, the projection that drops the height axis. *)
#[export] Instance referenceApi : Gw2Api := {|
  identity_ne a b := negb (MumbleIdentity_eqb a b);
  vector3_ne a b := negb (Vector3D_eqb a b);
  toVector2D v := mkVector2D (v3_x v) (v3_z v);
  getDistance := euclidean;
  toContinentPosition := affineToContinent
|}.

(** A rectangle with no extent along one of its axes. *)
Definition degenerate (r : Rect) : bool :=
  PrimFloat.eqb (v2_x (rect_hi r)) (v2_x (rect_lo r))
  || PrimFloat.eqb (v2_y (rect_hi r)) (v2_y (rect_lo r)).

Fixpoint words (s cur : string) : list string :=
  match s with
  | EmptyString => [cur]
  | String c rest =>
      if Ascii.eqb c " " then cur :: words rest ""
      else words rest (cur ++ String c "")
  end.

(** A command is its kind followed by its parameters, separated by spaces. *)
Definition parseWords (s : string) : CommandType * list string :=
  match words s "" with
  | k :: ps =>
      if String.eqb k "GW2Info" then (CMD_GW2INFO, ps)
      else if String.eqb k "RequestGW2Info" then (CMD_REQUESTGW2INFO, ps)
      else (CMD_NONE, ps)
  | [] => (CMD_NONE, [])
  end.

#[export] Instance referenceCommands : CommandsApi := {|
  parseCommand := parseWords;
  Gw2Info_fromJson _ := Gw2Info_clear
|}.

(** ** Sample inputs *)

Definition noIdentity : MumbleIdentity := mkMumbleIdentity "" 0 0 0 0 false.
Definition origin : Vector3D := mkVector3D 0 0 0.
Definition aliceIdentity : MumbleIdentity :=
  mkMumbleIdentity "Alice" 2 15 1001 9 false.

(** A map whose rectangle is four times its continent rectangle. *)
Definition queensdale : MapEntry :=
  mkMapEntry "Queensdale" 4 "Kryta" 1 "Tyria"
    (mkRect (mkVector2D 0 0) (mkVector2D 4 4))
    (mkRect (mkVector2D 0 0) (mkVector2D 1 1)).

(** A map entry whose map rectangle has no extent. *)
Definition flatMap : MapEntry :=
  mkMapEntry "Flat" 4 "Kryta" 1 "Tyria"
    (mkRect (mkVector2D 0 0) (mkVector2D 0 0))
    (mkRect (mkVector2D 0 0) (mkVector2D 1 1)).

(** An iteration at second [t] with every lookup failing. *)
Definition sample (online : bool) (t : Z) (i : MumbleIdentity) (p : Vector3D)
    : Tick :=
  {| isActive := online; isGW2 := true; time_link := t;
     getIdentity := i; getAvatarPosition := p;
     getMap_identity := fun _ => None; getWorldNames := None;
     time_identity := t;
     getMap_position := fun _ => None;
     getClosestWaypoint := fun _ _ => None;
     time_position := t; time_offline := t; time_unlink := t; time_send := t;
     currentServerConnectionHandlerID := 1 |}.

(** The same iteration with the map lookups answering [m]. *)
Definition withMap (m : MapEntry) (tk : Tick) : Tick :=
  {| isActive := isActive tk; isGW2 := isGW2 tk; time_link := time_link tk;
     getIdentity := getIdentity tk; getAvatarPosition := getAvatarPosition tk;
     getMap_identity := fun _ => Some m; getWorldNames := getWorldNames tk;
     time_identity := time_identity tk;
     getMap_position := fun _ => Some m;
     getClosestWaypoint := getClosestWaypoint tk;
     time_position := time_position tk; time_offline := time_offline tk;
     time_unlink := time_unlink tk; time_send := time_send tk;
     currentServerConnectionHandlerID := currentServerConnectionHandlerID tk |}.

(** The same iteration with other answers of the identity update's lookups. *)
Definition withIdentityLookups (m : Z -> option MapEntry)
    (w : option (gmap Z WorldNameEntry)) (tk : Tick) : Tick :=
  {| isActive := isActive tk; isGW2 := isGW2 tk; time_link := time_link tk;
     getIdentity := getIdentity tk; getAvatarPosition := getAvatarPosition tk;
     getMap_identity := m; getWorldNames := w;
     time_identity := time_identity tk;
     getMap_position := getMap_position tk;
     getClosestWaypoint := getClosestWaypoint tk;
     time_position := time_position tk; time_offline := time_offline tk;
     time_unlink := time_unlink tk; time_send := time_send tk;
     currentServerConnectionHandlerID := currentServerConnectionHandlerID tk |}.

(** Thresholds of five seconds and two units. *)
Definition sampleGlobals : Globals := mkGlobals 5 5 2.

Definition startState : LoopState :=
  initialState noIdentity origin Gw2Info_clear.

(** A second past the epoch at which the samples start. *)
Definition t0 : Z := 1400000000.

(** The state after one online sample from the start: linked, online. *)
Definition onlineState : LoopState :=
  fst (mumbleLinkCheckLoop sampleGlobals [sample true t0 noIdentity origin]
         startState).

(** The state one second into an offline period that follows it. *)
Definition droppedState : LoopState :=
  fst (loopIteration sampleGlobals (sample false (t0 + 1) noIdentity origin)
         onlineState).

(** Alice on the map: a first position, then four map units (one continent
    unit) further ten seconds later. *)
Definition walk1 : Tick :=
  withMap queensdale (sample true t0 aliceIdentity (mkVector3D 8 0 8)).
Definition walk2 : Tick :=
  withMap queensdale (sample true (t0 + 10) aliceIdentity (mkVector3D 12 0 8)).

(** The state after the first position was transmitted. *)
Definition walkingState : LoopState :=
  fst (loopIteration sampleGlobals walk1 startState).

(** One map unit from the first position, then a second unit. *)
Definition step1 : Tick :=
  withMap queensdale (sample true (t0 + 10) aliceIdentity (mkVector3D 9 0 8)).
Definition step2 : Tick :=
  withMap queensdale (sample true (t0 + 11) aliceIdentity (mkVector3D 10 0 8)).

(** One map unit from the first position along the other axis, much later. *)
Definition sidestep : Tick :=
  withMap queensdale (sample true (t0 + 1000) aliceIdentity (mkVector3D 8 0 9)).

(** Three map units from the first position. *)
Definition stride : Tick :=
  withMap queensdale (sample true (t0 + 10) aliceIdentity (mkVector3D 11 0 8)).

(** The position of [walk2] while the map lookup answers a map entry whose
    rectangle has no extent. *)
Definition walkFlat : Tick :=
  withMap flatMap (sample true (t0 + 10) aliceIdentity (mkVector3D 12 0 8)).

(** The position of [walk2] while every lookup fails. *)
Definition walkBlind : Tick :=
  sample true (t0 + 10) aliceIdentity (mkVector3D 12 0 8).

(** Another character seen one second after the first transmission, at the
    first position. *)
Definition bobIdentity : MumbleIdentity :=
  mkMumbleIdentity "Bob" 5 15 1001 9 true.
Definition relog : Tick :=
  sample true (t0 + 1) bobIdentity (mkVector3D 8 0 8).

(** A record received from client [cid] on connection [sch]. *)
Definition remote (sch cid : Z) : Gw2RemoteInfo :=
  mkGw2RemoteInfo Gw2Info_clear sch cid.

(** The plugin holding Alice's record and one remote record on each of two
    connections. *)
Definition samplePlugin : Plugin :=
  {| plugin_gw2Info := gw2Info walkingState;
     gw2RemoteInfoContainer :=
       updateRemoteGW2Info (remote 1 7) (updateRemoteGW2Info (remote 2 7) ∅);
     infoDataType := 0;
     infoDataId := 0 |}.

(** ** Predicates the theorems are stated with *)

(** The latest unbroken run of raw-online samples of [hist] (oldest first):
    the time of its first sample, if [hist] ends online. *)
Fixpoint onlineSince (acc : option Z) (hist : list Tick) : option Z :=
  match hist with
  | [] => acc
  | t :: rest =>
      onlineSince
        (if rawOnline t
         then Some (match acc with Some s => s | None => time_link t end)
         else None) rest
  end.

(** The sample [tk] is raw-online and ends at least [w] seconds of unbroken
    raw-online samples. *)
Definition continuouslyOnlineFor (w : Z) (hist : list Tick) (tk : Tick) : bool :=
  rawOnline tk
  && match onlineSince None hist with
     | Some s => w <=? time_link tk - s
     | None => w <=? 0
     end.

(** The iteration [tk'] reads what [tk] reads, except for the map and the
    world-name lookups of the identity update. *)
Definition sameButIdentityLookups (tk tk' : Tick) : Prop :=
  isActive tk' = isActive tk /\ isGW2 tk' = isGW2 tk
  /\ time_link tk' = time_link tk /\ getIdentity tk' = getIdentity tk
  /\ getAvatarPosition tk' = getAvatarPosition tk
  /\ time_identity tk' = time_identity tk
  /\ getMap_position tk' = getMap_position tk
  /\ getClosestWaypoint tk' = getClosestWaypoint tk
  /\ time_position tk' = time_position tk
  /\ time_offline tk' = time_offline tk /\ time_unlink tk' = time_unlink tk
  /\ time_send tk' = time_send tk
  /\ currentServerConnectionHandlerID tk' = currentServerConnectionHandlerID tk.

(** The loop's variables other than the record. *)
Definition controlState (st : LoopState)
    : Z * Z * bool * bool * MumbleIdentity * Vector3D * Vector2D :=
  (lastTransmissionTime st, lastOffline st, linked st, prevIsOnline st,
   prevIdentity st, prevAvatarPosition st, prevDistancePosition st).

(** Every field of the record is zero, false or empty. *)
Definition isEmptyRecord (i : Gw2Info) : Prop :=
  characterName i = "" /\ info_profession i = 0 /\ mapId i = 0
  /\ mapName i = "" /\ regionId i = 0 /\ regionName i = ""
  /\ continentId i = 0 /\ continentName i = "" /\ worldId i = 0
  /\ worldName i = "" /\ teamColorId i = 0 /\ info_commander i = false
  /\ characterContinentPosition i = mkVector2D 0 0
  /\ waypointId i = 0 /\ waypointName i = ""
  /\ waypointContinentPosition i = mkVector2D 0 0.

(** The transmission of the record held after the iteration. *)
Definition broadcast (tk : Tick) (st : LoopState) : Effect :=
  SendGW2Info (currentServerConnectionHandlerID tk) (gw2Info st)
    PluginCommandTarget_SERVER None.

(** Line 458 is reached: the identity changed and its gate is open. *)
Definition identityTriggers `{Gw2Api} (g : Globals) (tk : Tick)
    (st : LoopState) : bool :=
  identity_ne (getIdentity tk) (prevIdentity st) && identityGate g tk st.

(** Lines 494-495 are reached: the position changed and its gate is open. *)
Definition positionTriggers `{Gw2Api} (g : Globals) (tk : Tick)
    (st : LoopState) : bool :=
  vector3_ne (getAvatarPosition tk) (prevAvatarPosition st)
  && positionGate g tk st (getAvatarPosition tk).

(** The flag [updated] of an online iteration. *)
Definition onlineUpdated `{Gw2Api} (g : Globals) (tk : Tick) (st : LoopState)
    : bool :=
  identityTriggers g tk st || positionTriggers g tk st.

(** The continent positions of the records transmitted, in order. *)
Definition sentContinentPositions (out : list Effect) : list Vector2D :=
  flat_map (fun e => match e with
                     | SendGW2Info _ i _ _ => [characterContinentPosition i]
                     | _ => []
                     end) out.

(** The record an online iteration leaves behind. *)
Definition onlineRecord `{Gw2Api} (tk : Tick) (st : LoopState) : Gw2Info :=
  let info1 :=
    if identity_ne (getIdentity tk) (prevIdentity st)
    then identityUpdate tk (getIdentity tk) (gw2Info st) else gw2Info st in
  if vector3_ne (getAvatarPosition tk) (prevAvatarPosition st)
  then positionUpdate tk (getAvatarPosition tk) info1 else info1.

(** Every sample of the run is raw-online, has the identity of the sample
    before it ([prev] for the first), and its projected avatar position is at
    distance [d] from [b]. *)
Fixpoint staysAt `{Gw2Api} (d : float) (b : Vector2D) (prev : MumbleIdentity)
    (ticks : list Tick) : Prop :=
  match ticks with
  | [] => True
  | tk :: rest =>
      rawOnline tk = true
      /\ identity_ne (getIdentity tk) prev = false
      /\ getDistance (toVector2D (getAvatarPosition tk)) b = d
      /\ staysAt d b (getIdentity tk) rest
  end.

(** ** The info panel and the update check *)

(** [enum PluginItemType] of the TeamSpeak plugin interface. *)
Definition PLUGIN_SERVER : Z := 0.
Definition PLUGIN_CLIENT : Z := 2.

(** A call of [Commands::requestGW2Info] (line 254): the connection, the
    target kind and the client id whose address is passed. *)
Record InfoRequest : Type := mkInfoRequest {
  request_serverConnectionHandlerID : Z;
  request_target : PluginCommandTarget;
  request_clientID : Z
}.

Definition setInfoData (itemType itemID : Z) (p : Plugin) : Plugin :=
  {| plugin_gw2Info := plugin_gw2Info p;
     gw2RemoteInfoContainer := gw2RemoteInfoContainer p;
     infoDataType := itemType;
     infoDataId := itemID |}.

(** Lines 234-255.  [getInfoData] is the container's method of gw2info.h: it
    answers the text for (connection, client id cast to [anyID], item type),
    or [None] when it throws an [int].  The result is the statics, the text
    handed to the client ([None] for [NULL]) and the requests sent. *)
Definition ts3plugin_infoData
    (getInfoData : Gw2RemoteInfoContainer -> Z -> Z -> Z -> option string)
    (serverConnectionHandlerID clientID itemType : Z) (p : Plugin)
    : Plugin * option string * list InfoRequest :=
  let isNew := negb (infoDataId p =? clientID) in
  let p' := setInfoData itemType clientID p in
  let data :=
    match getInfoData (gw2RemoteInfoContainer p) serverConnectionHandlerID
            (to_anyID clientID) itemType with
    | Some result =>
        if (0 <? String.length result)%nat then Some result else None
    | None => None
    end in
  (p', data,
   if isNew && (itemType =? PLUGIN_CLIENT)
   then [mkInfoRequest serverConnectionHandlerID PluginCommandTarget_CLIENT
           clientID]
   else []).

(** What one run of [checkForUpdatesAsync] reads from outside. *)
Record UpdateCheck : Type := mkUpdateCheck {
  time_entry : Z;       (* time(NULL), line 373 *)
  (* checkForUpdate, line 376: [None] when it throws, [Some None] when it
     answers false, else the new version's string and the download url *)
  checkForUpdate : option (option (string * string));
  time_stamp : Z        (* time(NULL), line 381 *)
}.

(** Lines 370-387: the new value of the static [lastUpdateCheck] and the
    messages printed to the current tab. *)
Definition checkForUpdatesAsync (c : UpdateCheck) (lastUpdateCheck : Z)
    : Z * list string :=
  if 3600 <=? time_entry c - lastUpdateCheck then
    match checkForUpdate c with
    | Some (Some (version, url)) =>
        (time_stamp c,
         ["[color=blue]Guild Wars 2 plugin version " ++ version
          ++ " is now available.[/color] " ++ "[url=" ++ url
          ++ "]Click here to download.[/url]"])
    | Some None => (time_stamp c, [])
    | None =>
        (lastUpdateCheck,
         ["Error while checking for Guild Wars 2 plugin updates."])
    end
  else (lastUpdateCheck, []).

(** The update checks run one after the other; the messages in order. *)
Fixpoint updateChecks (cs : list UpdateCheck) (lastUpdateCheck : Z)
    : Z * list string :=
  match cs with
  | [] => (lastUpdateCheck, [])
  | c :: rest =>
      let '(l1, out1) := checkForUpdatesAsync c lastUpdateCheck in
      let '(l2, out2) := updateChecks rest l1 in
      (l2, (out1 ++ out2)%list)
  end.

(** ** Further predicates on runs of the loop *)

(** The effect is a transmission to the whole server, with no target id. *)
Definition isBroadcast (e : Effect) : bool :=
  match e with
  | SendGW2Info _ _ PluginCommandTarget_SERVER None => true
  | _ => false
  end.

(** The effect is a transmission of the cleared record to the whole server. *)
Definition isOfflineBroadcast (e : Effect) : Prop :=
  exists id : Z,
    e = SendGW2Info id Gw2Info_clear PluginCommandTarget_SERVER None.

(** Every sample of the run is raw-online and, by the two [operator!=], has
    the identity and the avatar position of the sample before it ([prevId],
    [prevPos] for the first). *)
Fixpoint idleRun `{Gw2Api} (prevId : MumbleIdentity) (prevPos : Vector3D)
    (ticks : list Tick) : Prop :=
  match ticks with
  | [] => True
  | tk :: rest =>
      rawOnline tk = true
      /\ identity_ne (getIdentity tk) prevId = false
      /\ vector3_ne (getAvatarPosition tk) prevPos = false
      /\ idleRun (getIdentity tk) (getAvatarPosition tk) rest
  end.

(** The earliest and the latest of the times an iteration reads. *)
Definition earliest (tk : Tick) : Z :=
  Z.min (time_link tk)
    (Z.min (time_identity tk)
       (Z.min (time_position tk)
          (Z.min (time_offline tk) (Z.min (time_unlink tk) (time_send tk))))).

Definition latest (tk : Tick) : Z :=
  Z.max (time_link tk)
    (Z.max (time_identity tk)
       (Z.max (time_position tk)
          (Z.max (time_offline tk) (Z.max (time_unlink tk) (time_send tk))))).

(** The clock does not run backwards from one iteration to the next, and
    reads no time before [lo]. *)
Fixpoint clockFrom (lo : Z) (ticks : list Tick) : Prop :=
  match ticks with
  | [] => True
  | tk :: rest => lo <= earliest tk /\ clockFrom (latest tk) rest
  end.

(** Either the tracker is linked, or the last sample was offline and the
    remembered offline time lies a window or more before [lo]. *)
Definition linkReady (g : Globals) (lo : Z) (st : LoopState) : Prop :=
  linked st = true
  \/ (prevIsOnline st = false
      /\ lastOffline st + onlineStateTransmissionThreshold g <= lo).

(** The twelve fields of the record that lines 422-454 assign. *)
Definition identityFields (i : Gw2Info)
    : string * Z * Z * string * Z * string * Z * string * Z * string * Z * bool :=
  (characterName i, info_profession i, mapId i, mapName i, regionId i,
   regionName i, continentId i, continentName i, worldId i, worldName i,
   teamColorId i, info_commander i).

(** The waypoint fields lines 477-489 assign for the answer [w] of
    [getClosestWaypoint]. *)
Definition waypointFields (w : option PointOfInterestEntry)
    : Z * string * Vector2D :=
  match w with
  | Some e =>
      (poi_id e,
       if String.eqb (poi_name e) "" then "Waypoint " ++ to_string (poi_id e)
       else poi_name e,
       coord e)
  | None => (0, "", Vector2D_default)
  end.

(** ** More sample inputs *)

(** A waypoint without a name, and the same iteration as [walk2] with the
    waypoint lookup answering it. *)
Definition namelessWaypoint : PointOfInterestEntry :=
  mkPointOfInterestEntry 42 "" (mkVector2D 3 0).

Definition withWaypoint (w : option PointOfInterestEntry) (tk : Tick) : Tick :=
  {| isActive := isActive tk; isGW2 := isGW2 tk; time_link := time_link tk;
     getIdentity := getIdentity tk; getAvatarPosition := getAvatarPosition tk;
     getMap_identity := getMap_identity tk; getWorldNames := getWorldNames tk;
     time_identity := time_identity tk;
     getMap_position := getMap_position tk;
     getClosestWaypoint := fun _ _ => w;
     time_position := time_position tk; time_offline := time_offline tk;
     time_unlink := time_unlink tk; time_send := time_send tk;
     currentServerConnectionHandlerID := currentServerConnectionHandlerID tk |}.

(** Alice standing at the first position, at second [t]. *)
Definition standing (t : Z) : Tick :=
  withMap queensdale (sample true t aliceIdentity (mkVector3D 8 0 8)).

(** Alice on another map at the first position, two seconds after the first
    transmission. *)
Definition aliceElsewhere : MumbleIdentity :=
  mkMumbleIdentity "Alice" 2 18 1001 9 false.
Definition mapChange : Tick :=
  sample true (t0 + 2) aliceElsewhere (mkVector3D 8 0 8).

(** An offline sample at second [t]. *)
Definition away (t : Z) : Tick := sample false t noIdentity origin.

(** The container answers the client's character name, and throws for an
    item that is no client. *)
Definition nameOfClient (c : Gw2RemoteInfoContainer) (sch cid itemType : Z)
    : option string :=
  if itemType =? PLUGIN_CLIENT
  then Some match c !! (sch, cid) with
            | Some r => characterName (remote_info r)
            | None => ""
            end
  else None.

(** Update checks: one that finds version 1.2, one that throws. *)
Definition foundUpdate (t : Z) : UpdateCheck :=
  mkUpdateCheck t (Some (Some ("1.2", "http://example.org/gw2"))) (t + 1).
Definition brokenCheck (t : Z) : UpdateCheck :=
  mkUpdateCheck t None (t + 1).

(** Case analysis on every condition of the goal. *)
Ltac split_ifs :=
  repeat match goal with
         | |- context [if ?b then _ else _] => destruct b
         end.

(** * Theorems *)

(** ** General facts about one iteration *)

Section Iteration.
Context `{api : Gw2Api}.
Variables (g : Globals) (tk : Tick) (st : LoopState).

Lemma transmit_effects (r : LoopState * bool) :
  snd (transmit tk r) = if snd r then [broadcast tk (fst r)] else [].
Proof. destruct r as [s [|]]; reflexivity. Qed.

Lemma transmit_control (r : LoopState * bool) :
  lastOffline (fst (transmit tk r)) = lastOffline (fst r)
  /\ linked (fst (transmit tk r)) = linked (fst r)
  /\ prevIsOnline (fst (transmit tk r)) = prevIsOnline (fst r)
  /\ prevIdentity (fst (transmit tk r)) = prevIdentity (fst r)
  /\ prevAvatarPosition (fst (transmit tk r)) = prevAvatarPosition (fst r)
  /\ prevDistancePosition (fst (transmit tk r)) = prevDistancePosition (fst r)
  /\ gw2Info (fst (transmit tk r)) = gw2Info (fst r).
Proof. destruct r as [s [|]]; cbn; repeat split. Qed.

Lemma transmit_time (r : LoopState * bool) :
  lastTransmissionTime (fst (transmit tk r))
  = if snd r then time_send tk else lastTransmissionTime (fst r).
Proof. destruct r as [s [|]]; reflexivity. Qed.

Lemma broadcast_after_transmit (r : LoopState * bool) :
  broadcast tk (fst (transmit tk r)) = broadcast tk (fst r).
Proof. destruct r as [s [|]]; reflexivity. Qed.

(** An iteration transmits at most once, and what it transmits is the record
    it leaves behind, sent to the whole server. *)
Lemma iteration_effects :
  snd (loopIteration g tk st)
  = if snd (loopBody g tk st)
    then [broadcast tk (fst (loopIteration g tk st))] else [].
Proof.
  unfold loopIteration. rewrite transmit_effects, broadcast_after_transmit.
  reflexivity.
Qed.

Lemma loopBody_offline :
  rawOnline tk = false ->
  loopBody g tk st
  = ({| lastTransmissionTime := lastTransmissionTime st;
        lastOffline := offlineStamp tk st;
        linked := if unlinkGate g tk st then false else linked st;
        prevIsOnline := false;
        prevIdentity := prevIdentity st;
        prevAvatarPosition := prevAvatarPosition st;
        prevDistancePosition := prevDistancePosition st;
        gw2Info := if unlinkGate g tk st then Gw2Info_clear else gw2Info st |},
     unlinkGate g tk st).
Proof. intros Hoff. unfold loopBody. rewrite Hoff. reflexivity. Qed.

Lemma loopBody_online :
  rawOnline tk = true ->
  loopBody g tk st
  = ({| lastTransmissionTime := lastTransmissionTime st;
        lastOffline := 0;
        linked := if linkGate g tk st then true else linked st;
        prevIsOnline := true;
        prevIdentity := getIdentity tk;
        prevAvatarPosition := getAvatarPosition tk;
        prevDistancePosition :=
          if positionTriggers g tk st
          then toVector2D (getAvatarPosition tk)
          else prevDistancePosition st;
        gw2Info := onlineRecord tk st |},
     onlineUpdated g tk st).
Proof.
  intros Hon.
  unfold loopBody, onlineUpdated, identityTriggers, positionTriggers,
    onlineRecord.
  rewrite Hon.
  destruct (identity_ne _ _), (vector3_ne _ _), (identityGate _ _ _),
    (positionGate _ _ _ _); reflexivity.
Qed.

End Iteration.

Lemma loop_cons `{Gw2Api} (g : Globals) (tk : Tick) (rest : list Tick)
    (st : LoopState) :
  mumbleLinkCheckLoop g (tk :: rest) st
  = (fst (mumbleLinkCheckLoop g rest (fst (loopIteration g tk st))),
     (snd (loopIteration g tk st)
      ++ snd (mumbleLinkCheckLoop g rest (fst (loopIteration g tk st))))%list).
Proof.
  cbn [mumbleLinkCheckLoop].
  destruct (loopIteration g tk st) as [st1 out1]. cbn [fst snd].
  destruct (mumbleLinkCheckLoop g rest st1) as [st2 out2]. reflexivity.
Qed.

(** ** Going offline *)

Lemma leb_spec_true (a b : Z) : a <= b -> (a <=? b) = true.
Proof. intros Hle. apply Z.leb_le. exact Hle. Qed.

Lemma leb_spec_false (a b : Z) : b < a -> (a <=? b) = false.
Proof. intros Hlt. apply Z.leb_gt. exact Hlt. Qed.

Lemma clear_is_empty : isEmptyRecord Gw2Info_clear.
Proof. unfold isEmptyRecord. cbn. repeat split. Qed.

(** C2. On an iteration whose sample is not raw-online: if the previous sample
    was raw-online the offline time is remembered; and if the tracker is
    linked and the time since the remembered offline time has reached
    [onlineStateTransmissionThreshold], the tracker unlinks, the record is
    the cleared record (numeric fields zero, strings empty), and the
    iteration's effects are exactly one transmission of the cleared record
    to the server. *)
Theorem offline_sample_unlinks `{Gw2Api} (g : Globals) (tk : Tick)
    (st : LoopState) :
  rawOnline tk = false ->
  (prevIsOnline st = true ->
   lastOffline (fst (loopIteration g tk st)) = time_offline tk)
  /\ (linked st = true ->
      onlineStateTransmissionThreshold g
      <= time_unlink tk - lastOffline (fst (loopIteration g tk st)) ->
      linked (fst (loopIteration g tk st)) = false
      /\ gw2Info (fst (loopIteration g tk st)) = Gw2Info_clear
      /\ isEmptyRecord (gw2Info (fst (loopIteration g tk st)))
      /\ snd (loopIteration g tk st)
         = [SendGW2Info (currentServerConnectionHandlerID tk) Gw2Info_clear
              PluginCommandTarget_SERVER None]).
Proof.
  intros Hoff.
  rewrite iteration_effects. unfold broadcast.
  unfold loopIteration.
  destruct (transmit_control tk (loopBody g tk st))
    as (Hlo & Hli & _ & _ & _ & _ & Hinfo).
  rewrite Hlo, Hli, Hinfo. clear Hlo Hli Hinfo.
  rewrite (loopBody_offline g tk st Hoff). cbn [fst snd lastOffline linked gw2Info].
  split.
  - intros Hprev. unfold offlineStamp. rewrite Hprev. reflexivity.
  - intros Hlinked Hwindow.
    assert (Hgate : unlinkGate g tk st = true).
    { unfold unlinkGate. rewrite Hlinked. cbn. apply leb_spec_true, Hwindow. }
    rewrite Hgate. repeat split.
Qed.

Lemma offline_sample_unlinks_witness :
  lastOffline
    (fst (loopIteration sampleGlobals (sample false (t0 + 1) noIdentity origin)
            onlineState)) = t0 + 1
  /\ linked
       (fst (loopIteration sampleGlobals
               (sample false (t0 + 6) noIdentity origin) droppedState)) = false
  /\ snd (loopIteration sampleGlobals
            (sample false (t0 + 6) noIdentity origin) droppedState)
     = [SendGW2Info 1 Gw2Info_clear PluginCommandTarget_SERVER None].
Proof.
  split.
  - apply (offline_sample_unlinks sampleGlobals
             (sample false (t0 + 1) noIdentity origin) onlineState);
      reflexivity.
  - destruct (offline_sample_unlinks sampleGlobals
                (sample false (t0 + 6) noIdentity origin) droppedState
                eq_refl) as [_ Hunlink].
    destruct Hunlink as (Hl & _ & _ & Hs).
    + reflexivity.
    + vm_compute. discriminate.
    + split; [exact Hl | exact Hs].
Defined.

(** ** Coming online *)

Section Linking.
Context `{api : Gw2Api}.
Variable g : Globals.

Lemma iteration_linked (tk : Tick) (st : LoopState) :
  linked (fst (loopIteration g tk st))
  = if rawOnline tk
    then (if linkGate g tk st then true else linked st)
    else (if unlinkGate g tk st then false else linked st).
Proof.
  unfold loopIteration.
  destruct (transmit_control tk (loopBody g tk st)) as (_ & Hli & _).
  rewrite Hli. destruct (rawOnline tk) eqn:Hraw.
  - rewrite (loopBody_online g tk st Hraw). reflexivity.
  - rewrite (loopBody_offline g tk st Hraw). reflexivity.
Qed.

Lemma iteration_offline_stamp (tk : Tick) (st : LoopState) :
  rawOnline tk = false ->
  lastOffline (fst (loopIteration g tk st)) = offlineStamp tk st
  /\ prevIsOnline (fst (loopIteration g tk st)) = false.
Proof.
  intros Hraw. unfold loopIteration.
  destruct (transmit_control tk (loopBody g tk st)) as (Hlo & _ & Hp & _).
  rewrite Hlo, Hp, (loopBody_offline g tk st Hraw). split; reflexivity.
Qed.

(** Offline samples that follow an offline sample keep the remembered time. *)
Lemma offline_run_keeps_stamp (offs : list Tick) :
  forall st : LoopState,
    prevIsOnline st = false ->
    forallb (fun t => negb (rawOnline t)) offs = true ->
    lastOffline (fst (mumbleLinkCheckLoop g offs st)) = lastOffline st
    /\ prevIsOnline (fst (mumbleLinkCheckLoop g offs st)) = false.
Proof.
  induction offs as [|tk rest IH]; intros st Hprev Hall.
  - split; [reflexivity | exact Hprev].
  - cbn [forallb] in Hall. apply andb_prop in Hall as [Hraw Hrest].
    apply negb_true_iff in Hraw.
    rewrite loop_cons. cbn [fst].
    destruct (iteration_offline_stamp tk st Hraw) as [Hlo Hp].
    destruct (IH _ Hp Hrest) as [IHlo IHp].
    split; [|exact IHp].
    rewrite IHlo, Hlo. unfold offlineStamp. rewrite Hprev. reflexivity.
Qed.

End Linking.

(** C1, as the code has it. The tracker becomes linked on an iteration exactly
    when the sample is raw-online, the previous sample was not, and the time
    since the remembered offline time (zero at the start and after every
    raw-online sample) has reached [onlineStateTransmissionThreshold]: what
    must reach the window is the offline period before the sample, not a
    period of raw-online samples.  In particular, a raw-online sample that
    ends an offline period which followed a raw-online sample and lasted less
    than the window leaves [linked] as it was. *)
Theorem link_after_offline_window `{Gw2Api} (g : Globals) :
  (forall (tk : Tick) (st : LoopState),
      linked st = false /\ linked (fst (loopIteration g tk st)) = true
      <-> linked st = false /\ rawOnline tk = true /\ prevIsOnline st = false
          /\ onlineStateTransmissionThreshold g
             <= time_link tk - lastOffline st)
  /\ (forall (st : LoopState) (off : Tick) (offs : list Tick) (tk : Tick),
         prevIsOnline st = true ->
         rawOnline off = false ->
         forallb (fun t => negb (rawOnline t)) offs = true ->
         rawOnline tk = true ->
         time_link tk - time_offline off < onlineStateTransmissionThreshold g ->
         linked (fst (loopIteration g tk
                        (fst (mumbleLinkCheckLoop g (off :: offs) st))))
         = linked (fst (mumbleLinkCheckLoop g (off :: offs) st))).
Proof.
  split.
  - intros tk st. rewrite iteration_linked. unfold linkGate.
    split.
    + intros [Hl Hafter]. rewrite Hl in Hafter.
      destruct (rawOnline tk).
      * destruct (prevIsOnline st); cbn in Hafter; [discriminate|].
        destruct (_ <=? _) eqn:Hleb in Hafter; [|discriminate].
        apply Z.leb_le in Hleb. auto.
      * destruct (unlinkGate g tk st); discriminate.
    + intros (Hl & Hraw & Hprev & Hwin).
      rewrite Hraw, Hprev, (leb_spec_true _ _ Hwin). auto.
  - intros st off offs tk Hprev Hoff Hoffs Hon Hshort.
    rewrite loop_cons. cbn [fst].
    destruct (iteration_offline_stamp g off st Hoff) as [Hlo Hp].
    destruct (offline_run_keeps_stamp g offs _ Hp Hoffs) as [Hlo' Hp'].
    rewrite iteration_linked, Hon. unfold linkGate.
    rewrite Hp', Hlo', Hlo. unfold offlineStamp. rewrite Hprev.
    rewrite (leb_spec_false _ _ Hshort). reflexivity.
Qed.

Lemma link_after_offline_window_witness :
  linked (fst (loopIteration sampleGlobals (sample true t0 noIdentity origin)
                 startState)) = true
  /\ linked
       (fst (loopIteration sampleGlobals
               (sample true (t0 + 3) noIdentity origin)
               (fst (mumbleLinkCheckLoop sampleGlobals
                       [sample false (t0 + 1) noIdentity origin;
                        sample false (t0 + 2) noIdentity origin]
                       onlineState))))
     = linked
         (fst (mumbleLinkCheckLoop sampleGlobals
                 [sample false (t0 + 1) noIdentity origin;
                  sample false (t0 + 2) noIdentity origin]
                 onlineState)).
Proof.
  destruct (link_after_offline_window sampleGlobals) as [Hiff Hshort].
  split.
  - apply (Hiff (sample true t0 noIdentity origin) startState).
    repeat split. vm_compute. discriminate.
  - apply Hshort; try reflexivity.
Defined.

(** C1, as the claim states it, fails: from the start, one offline sample
    and then the first raw-online sample a second later link the tracker,
    with no raw-online sample before it and an offline period far shorter
    than the window of five seconds. *)
Lemma link_without_online_window :
  linked startState = false
  /\ linked
       (fst (mumbleLinkCheckLoop sampleGlobals
               [sample false t0 noIdentity origin;
                sample true (t0 + 1) noIdentity origin] startState)) = true
  /\ continuouslyOnlineFor (onlineStateTransmissionThreshold sampleGlobals)
       [sample false t0 noIdentity origin]
       (sample true (t0 + 1) noIdentity origin) = false.
Proof. vm_compute. repeat split. Qed.

(** ** Online iterations *)

Section Online.
Context `{api : Gw2Api}.
Variables (g : Globals) (tk : Tick) (st : LoopState).
Hypothesis Hon : rawOnline tk = true.

Lemma online_effects :
  snd (loopIteration g tk st)
  = if onlineUpdated g tk st
    then [broadcast tk (fst (loopIteration g tk st))] else [].
Proof. rewrite iteration_effects, (loopBody_online g tk st Hon). reflexivity. Qed.

Lemma online_record :
  gw2Info (fst (loopIteration g tk st)) = onlineRecord tk st.
Proof.
  unfold loopIteration.
  destruct (transmit_control tk (loopBody g tk st)) as (_ & _ & _ & _ & _ & _ & Hi).
  rewrite Hi, (loopBody_online g tk st Hon). reflexivity.
Qed.

Lemma online_baseline :
  prevDistancePosition (fst (loopIteration g tk st))
  = if positionTriggers g tk st
    then toVector2D (getAvatarPosition tk) else prevDistancePosition st.
Proof.
  unfold loopIteration.
  destruct (transmit_control tk (loopBody g tk st)) as (_ & _ & _ & _ & _ & Hd & _).
  rewrite Hd, (loopBody_online g tk st Hon). reflexivity.
Qed.

End Online.

Lemma offline_baseline `{Gw2Api} (g : Globals) (tk : Tick) (st : LoopState) :
  rawOnline tk = false ->
  prevDistancePosition (fst (loopIteration g tk st)) = prevDistancePosition st.
Proof.
  intros Hoff. unfold loopIteration.
  destruct (transmit_control tk (loopBody g tk st)) as (_ & _ & _ & _ & _ & Hd & _).
  rewrite Hd, (loopBody_offline g tk st Hoff). reflexivity.
Qed.

(** ** The position gate *)

Lemma online_prevIdentity `{Gw2Api} (g : Globals) (tk : Tick) (st : LoopState) :
  rawOnline tk = true ->
  prevIdentity (fst (loopIteration g tk st)) = getIdentity tk.
Proof.
  intros Hon. unfold loopIteration.
  destruct (transmit_control tk (loopBody g tk st)) as (_ & _ & _ & Hi & _).
  rewrite Hi, (loopBody_online g tk st Hon). reflexivity.
Qed.

(** C3, as the code has it. On an online iteration whose avatar position
    changed, and on which no identity change triggers, the record is
    transmitted exactly when the time since the last transmission has reached
    [locationTransmissionThreshold] and the distance between the 2D
    projection of the avatar position (the feed's own units, not the
    continent position) and the baseline has reached
    [distanceTransmissionThreshold].  With a threshold of 2, a run of samples
    of one identity whose projected positions are at distance 1 from the
    baseline transmits nothing, whatever the times are; and a position at
    distance 3, once the time threshold has elapsed, transmits exactly
    once. *)
Theorem position_transmission_gate `{Gw2Api} (g : Globals) :
  (forall (tk : Tick) (st : LoopState),
      rawOnline tk = true ->
      vector3_ne (getAvatarPosition tk) (prevAvatarPosition st) = true ->
      identityTriggers g tk st = false ->
      snd (loopIteration g tk st)
      = if (locationTransmissionThreshold g
            <=? time_position tk - lastTransmissionTime st)
           && PrimFloat.leb (distanceTransmissionThreshold g)
                (getDistance (toVector2D (getAvatarPosition tk))
                   (prevDistancePosition st))
        then [broadcast tk (fst (loopIteration g tk st))] else [])
  /\ (forall (ticks : list Tick) (st : LoopState),
         distanceTransmissionThreshold g = 2%float ->
         staysAt 1 (prevDistancePosition st) (prevIdentity st) ticks ->
         snd (mumbleLinkCheckLoop g ticks st) = [])
  /\ (forall (tk : Tick) (st : LoopState),
         rawOnline tk = true ->
         vector3_ne (getAvatarPosition tk) (prevAvatarPosition st) = true ->
         distanceTransmissionThreshold g = 2%float ->
         getDistance (toVector2D (getAvatarPosition tk))
           (prevDistancePosition st) = 3%float ->
         locationTransmissionThreshold g
         <= time_position tk - lastTransmissionTime st ->
         snd (loopIteration g tk st)
         = [broadcast tk (fst (loopIteration g tk st))]).
Proof.
  split; [|split].
  - intros tk st Hon Hmoved Hid.
    rewrite (online_effects g tk st Hon).
    unfold onlineUpdated, positionTriggers, positionGate.
    rewrite Hid, Hmoved. reflexivity.
  - intros ticks st Hthr. revert st.
    induction ticks as [|tk rest IH]; intros st Hstay; [reflexivity|].
    destruct Hstay as (Hon & Hid & Hdist & Hrest).
    assert (Hpos : positionTriggers g tk st = false).
    { unfold positionTriggers, positionGate. rewrite Hthr, Hdist.
      rewrite !andb_false_r. reflexivity. }
    rewrite loop_cons. cbn [snd].
    rewrite (online_effects g tk st Hon).
    unfold onlineUpdated, identityTriggers. rewrite Hid, Hpos. cbn [andb orb app].
    apply IH.
    rewrite (online_baseline g tk st Hon), Hpos.
    rewrite (online_prevIdentity g tk st Hon). exact Hrest.
  - intros tk st Hon Hmoved Hthr Hdist Htime.
    rewrite (online_effects g tk st Hon).
    unfold onlineUpdated, positionTriggers, positionGate.
    rewrite Hmoved, Hthr, Hdist, (leb_spec_true _ _ Htime).
    rewrite orb_true_r. reflexivity.
Qed.

Lemma position_transmission_gate_witness :
  snd (mumbleLinkCheckLoop sampleGlobals [step1; sidestep] walkingState) = []
  /\ snd (loopIteration sampleGlobals stride walkingState)
     = [broadcast stride (fst (loopIteration sampleGlobals stride walkingState))].
Proof.
  destruct (position_transmission_gate sampleGlobals) as (_ & Hnear & Hfar).
  split.
  - apply Hnear; [reflexivity|].
    cbn [staysAt]. repeat split; vm_compute; reflexivity.
  - apply Hfar; vm_compute; solve [reflexivity | discriminate].
Defined.

(** C3, as the claim states it, fails: with a distance threshold of 2, two
    positions that are one unit apart in continent space (four units apart
    in the feed's space) are both transmitted. *)
Lemma continent_step_below_threshold_transmits :
  distanceTransmissionThreshold sampleGlobals = 2%float
  /\ sentContinentPositions
       (snd (mumbleLinkCheckLoop sampleGlobals [walk1; walk2] startState))
     = [mkVector2D 2 (-1); mkVector2D 3 (-1)]
  /\ getDistance (mkVector2D 2 (-1)) (mkVector2D 3 (-1)) = 1%float
  /\ List.length
       (snd (mumbleLinkCheckLoop sampleGlobals [walk1; walk2] startState))
     = 2%nat.
Proof. vm_compute. repeat split. Qed.

(** ** The baseline of the distance threshold *)

(** C10. An iteration either leaves the baseline [prevDistancePosition] as it
    was, or it is an online iteration whose position trigger fired, the
    baseline is the projection of the new avatar position and the record is
    transmitted on that iteration; a position change whose gate is closed
    (time or distance below its threshold) leaves the baseline unchanged; and
    over any run of iterations that transmits nothing the baseline is
    unchanged, so distance is measured from the same baseline until a
    transmission occurs. *)
Theorem baseline_moves_with_transmission `{Gw2Api} (g : Globals) :
  (forall (tk : Tick) (st : LoopState),
      prevDistancePosition (fst (loopIteration g tk st))
      = prevDistancePosition st
      \/ (rawOnline tk = true /\ positionTriggers g tk st = true
          /\ prevDistancePosition (fst (loopIteration g tk st))
             = toVector2D (getAvatarPosition tk)
          /\ snd (loopIteration g tk st)
             = [broadcast tk (fst (loopIteration g tk st))]))
  /\ (forall (tk : Tick) (st : LoopState),
         rawOnline tk = true ->
         vector3_ne (getAvatarPosition tk) (prevAvatarPosition st) = true ->
         time_position tk - lastTransmissionTime st
         < locationTransmissionThreshold g
         \/ PrimFloat.leb (distanceTransmissionThreshold g)
              (getDistance (toVector2D (getAvatarPosition tk))
                 (prevDistancePosition st)) = false ->
         prevDistancePosition (fst (loopIteration g tk st))
         = prevDistancePosition st)
  /\ (forall (ticks : list Tick) (st : LoopState),
         snd (mumbleLinkCheckLoop g ticks st) = [] ->
         prevDistancePosition (fst (mumbleLinkCheckLoop g ticks st))
         = prevDistancePosition st).
Proof.
  assert (Hstep : forall tk st,
             prevDistancePosition (fst (loopIteration g tk st))
             = prevDistancePosition st
             \/ (rawOnline tk = true /\ positionTriggers g tk st = true
                 /\ prevDistancePosition (fst (loopIteration g tk st))
                    = toVector2D (getAvatarPosition tk)
                 /\ snd (loopIteration g tk st)
                    = [broadcast tk (fst (loopIteration g tk st))])).
  { intros tk st. destruct (rawOnline tk) eqn:Hraw.
    - rewrite (online_baseline g tk st Hraw), (online_effects g tk st Hraw).
      unfold onlineUpdated.
      destruct (positionTriggers g tk st); [right | left; reflexivity].
      rewrite orb_true_r. repeat split.
    - left. apply offline_baseline, Hraw. }
  split; [exact Hstep|]. split.
  - intros tk st Hraw Hmoved Hbelow.
    rewrite (online_baseline g tk st Hraw).
    unfold positionTriggers, positionGate.
    destruct Hbelow as [Hshort | Hnear].
    + rewrite (leb_spec_false _ _ Hshort), andb_false_r. reflexivity.
    + rewrite Hnear, !andb_false_r. reflexivity.
  - induction ticks as [|tk rest IH]; intros st Hquiet.
    + reflexivity.
    + rewrite loop_cons in Hquiet |- *. cbn [fst snd] in Hquiet |- *.
      apply app_eq_nil in Hquiet as [Hnow Hlater].
      rewrite (IH _ Hlater).
      destruct (Hstep tk st) as [Hsame | (_ & _ & _ & Hsent)];
        [exact Hsame | rewrite Hsent in Hnow; discriminate].
Qed.

Lemma baseline_moves_with_transmission_witness :
  prevDistancePosition (fst (mumbleLinkCheckLoop sampleGlobals [step1]
                               walkingState))
  = prevDistancePosition walkingState.
Proof.
  destruct (baseline_moves_with_transmission sampleGlobals) as (_ & _ & Hrun).
  apply Hrun. vm_compute. reflexivity.
Defined.

(** Two steps of one unit each: the first is suppressed, the second is two
    units from the unchanged baseline and is transmitted. *)
Example displacement_accumulates :
  prevDistancePosition walkingState = mkVector2D 8 8
  /\ snd (mumbleLinkCheckLoop sampleGlobals [step1] walkingState) = []
  /\ List.length (snd (mumbleLinkCheckLoop sampleGlobals [step1; step2]
                    walkingState)) = 1%nat
  /\ prevDistancePosition
       (fst (mumbleLinkCheckLoop sampleGlobals [step1; step2] walkingState))
     = mkVector2D 10 8.
Proof. vm_compute. repeat split. Qed.

(** ** The identity update *)

Lemma positionUpdate_keeps `{Gw2Api} (tk : Tick) (p : Vector3D) (i : Gw2Info) :
  characterName (positionUpdate tk p i) = characterName i
  /\ info_profession (positionUpdate tk p i) = info_profession i
  /\ mapId (positionUpdate tk p i) = mapId i
  /\ mapName (positionUpdate tk p i) = mapName i
  /\ regionId (positionUpdate tk p i) = regionId i
  /\ regionName (positionUpdate tk p i) = regionName i
  /\ continentId (positionUpdate tk p i) = continentId i
  /\ continentName (positionUpdate tk p i) = continentName i
  /\ worldId (positionUpdate tk p i) = worldId i
  /\ worldName (positionUpdate tk p i) = worldName i
  /\ teamColorId (positionUpdate tk p i) = teamColorId i
  /\ info_commander (positionUpdate tk p i) = info_commander i.
Proof.
  unfold positionUpdate. destruct (getClosestWaypoint tk _ _); cbn;
    repeat split.
Qed.

Lemma positionUpdate_position `{Gw2Api} (tk : Tick) (p : Vector3D)
    (i : Gw2Info) :
  characterContinentPosition (positionUpdate tk p i)
  = continentPositionUpdate tk p i.
Proof.
  unfold positionUpdate. destruct (getClosestWaypoint tk _ _); reflexivity.
Qed.

Lemma identityUpdate_identity (tk : Tick) (n : MumbleIdentity) (i : Gw2Info) :
  characterName (identityUpdate tk n i) = name n
  /\ info_profession (identityUpdate tk n i) = profession n
  /\ mapId (identityUpdate tk n i) = map_id n
  /\ worldId (identityUpdate tk n i) = world_id n
  /\ teamColorId (identityUpdate tk n i) = team_color_id n
  /\ info_commander (identityUpdate tk n i) = commander n
  /\ characterContinentPosition (identityUpdate tk n i)
     = characterContinentPosition i.
Proof.
  unfold identityUpdate. destruct (getMap_identity tk _); cbn; repeat split.
Qed.

Lemma identityUpdate_map_found (tk : Tick) (n : MumbleIdentity) (i : Gw2Info)
    (e : MapEntry) :
  getMap_identity tk (map_id n) = Some e ->
  mapName (identityUpdate tk n i) = map_name e
  /\ regionId (identityUpdate tk n i) = region_id e
  /\ regionName (identityUpdate tk n i) = region_name e
  /\ continentId (identityUpdate tk n i) = continent_id e
  /\ continentName (identityUpdate tk n i) = continent_name e.
Proof. intros Hmap. unfold identityUpdate. rewrite Hmap. cbn. repeat split. Qed.

Lemma identityUpdate_map_missing (tk : Tick) (n : MumbleIdentity)
    (i : Gw2Info) :
  getMap_identity tk (map_id n) = None ->
  mapName (identityUpdate tk n i) = "Map " ++ to_string (map_id n)
  /\ regionId (identityUpdate tk n i) = 0
  /\ regionName (identityUpdate tk n i) = "Unknown region"
  /\ continentId (identityUpdate tk n i) = 0
  /\ continentName (identityUpdate tk n i) = "Unknown continent".
Proof. intros Hmap. unfold identityUpdate. rewrite Hmap. cbn. repeat split. Qed.

Lemma identityUpdate_world (tk : Tick) (n : MumbleIdentity) (i : Gw2Info) :
  worldName (identityUpdate tk n i)
  = match getWorldNames tk with
    | Some names =>
        match names !! world_id n with
        | Some e => wn_name e
        | None => "World " ++ to_string (world_id n)
        end
    | None => "World " ++ to_string (world_id n)
    end.
Proof. unfold identityUpdate. destruct (getMap_identity tk _); reflexivity. Qed.

(** After an identity change the twelve identity, map and world fields of the
    record are those of the identity update, whether or not the position
    changed on the same iteration. *)
Lemma onlineRecord_after_identity_change `{Gw2Api} (tk : Tick)
    (st : LoopState) :
  identity_ne (getIdentity tk) (prevIdentity st) = true ->
  let u := identityUpdate tk (getIdentity tk) (gw2Info st) in
  let r := onlineRecord tk st in
  characterName r = characterName u /\ info_profession r = info_profession u
  /\ mapId r = mapId u /\ mapName r = mapName u
  /\ regionId r = regionId u /\ regionName r = regionName u
  /\ continentId r = continentId u /\ continentName r = continentName u
  /\ worldId r = worldId u /\ worldName r = worldName u
  /\ teamColorId r = teamColorId u /\ info_commander r = info_commander u.
Proof.
  intros Hid. cbv zeta. unfold onlineRecord. rewrite Hid.
  destruct (vector3_ne _ _).
  - apply positionUpdate_keeps.
  - repeat split.
Qed.

(** C5. On an online iteration whose identity differs from the previous one,
    the record's identity fields are those of the new identity, its map
    fields those of the map lookup (or the fallback), its world name that of
    the world-name lookup (or the fallback); and the identity change marks
    the record for transmission exactly when the time since the last
    transmission has reached [locationTransmissionThreshold], with no distance
    condition: if it has, the record is transmitted on this iteration; if it
    has not, nothing is transmitted unless the position trigger fires; and a
    transmission implies the threshold was reached at one of the two times
    the iteration reads. *)
Theorem identity_change_repopulates `{Gw2Api} (g : Globals) (tk : Tick)
    (st : LoopState) :
  rawOnline tk = true ->
  identity_ne (getIdentity tk) (prevIdentity st) = true ->
  let i := gw2Info (fst (loopIteration g tk st)) in
  let n := getIdentity tk in
  (characterName i = name n /\ info_profession i = profession n
   /\ mapId i = map_id n /\ worldId i = world_id n
   /\ teamColorId i = team_color_id n /\ info_commander i = commander n)
  /\ match getMap_identity tk (map_id n) with
     | Some e =>
         mapName i = map_name e /\ regionId i = region_id e
         /\ regionName i = region_name e /\ continentId i = continent_id e
         /\ continentName i = continent_name e
     | None =>
         mapName i = "Map " ++ to_string (map_id n) /\ regionId i = 0
         /\ regionName i = "Unknown region" /\ continentId i = 0
         /\ continentName i = "Unknown continent"
     end
  /\ worldName i
     = match getWorldNames tk with
       | Some names =>
           match names !! world_id n with
           | Some e => wn_name e
           | None => "World " ++ to_string (world_id n)
           end
       | None => "World " ++ to_string (world_id n)
       end
  /\ (identityTriggers g tk st = true
      <-> locationTransmissionThreshold g
          <= time_identity tk - lastTransmissionTime st)
  /\ (locationTransmissionThreshold g
      <= time_identity tk - lastTransmissionTime st ->
      snd (loopIteration g tk st) = [broadcast tk (fst (loopIteration g tk st))])
  /\ (time_identity tk - lastTransmissionTime st
      < locationTransmissionThreshold g ->
      positionTriggers g tk st = false ->
      snd (loopIteration g tk st) = [])
  /\ (snd (loopIteration g tk st) <> [] ->
      locationTransmissionThreshold g
      <= time_identity tk - lastTransmissionTime st
      \/ locationTransmissionThreshold g
         <= time_position tk - lastTransmissionTime st).
Proof.
  intros Hon Hid. cbv zeta.
  rewrite (online_record g tk st Hon), (online_effects g tk st Hon).
  destruct (onlineRecord_after_identity_change tk st Hid)
    as (Hn & Hp & Hm & Hmn & Hri & Hrn & Hci & Hcn & Hw & Hwn & Ht & Hc).
  rewrite Hn, Hp, Hm, Hmn, Hri, Hrn, Hci, Hcn, Hw, Hwn, Ht, Hc.
  destruct (identityUpdate_identity tk (getIdentity tk) (gw2Info st))
    as (-> & -> & -> & -> & -> & -> & _).
  rewrite identityUpdate_world.
  unfold onlineUpdated, identityTriggers, identityGate. rewrite Hid. cbn [andb].
  split; [repeat split|]. split.
  { destruct (getMap_identity tk _) as [e|] eqn:Hmap.
    - apply identityUpdate_map_found, Hmap.
    - apply identityUpdate_map_missing, Hmap. }
  split; [reflexivity|]. split; [apply Z.leb_le|]. split; [|split].
  - intros Hwin. rewrite (leb_spec_true _ _ Hwin). reflexivity.
  - intros Hshort Hpos. rewrite (leb_spec_false _ _ Hshort), Hpos. reflexivity.
  - intros Hsent.
    destruct (_ <=? time_identity tk - _) eqn:Hgate.
    + left. apply Z.leb_le, Hgate.
    + right. cbn [orb] in Hsent.
      destruct (positionTriggers g tk st) eqn:Hpos; [|contradiction].
      unfold positionTriggers, positionGate in Hpos.
      apply andb_prop in Hpos as [_ Hpos].
      apply andb_prop in Hpos as [Hpos _]. apply Z.leb_le, Hpos.
Qed.

Lemma identity_change_repopulates_witness :
  characterName (gw2Info (fst (loopIteration sampleGlobals walk1 startState)))
  = "Alice"
  /\ snd (loopIteration sampleGlobals walk1 startState)
     = [broadcast walk1 (fst (loopIteration sampleGlobals walk1 startState))]
  /\ characterName
       (gw2Info (fst (loopIteration sampleGlobals relog walkingState))) = "Bob"
  /\ snd (loopIteration sampleGlobals relog walkingState) = [].
Proof.
  assert (Hchanged : identity_ne (getIdentity walk1) (prevIdentity startState)
                     = true) by (vm_compute; reflexivity).
  assert (Hchanged' : identity_ne (getIdentity relog) (prevIdentity walkingState)
                      = true) by (vm_compute; reflexivity).
  destruct (identity_change_repopulates sampleGlobals walk1 startState
              eq_refl Hchanged) as ((Hname & _) & _ & _ & _ & Hsend & _).
  destruct (identity_change_repopulates sampleGlobals relog walkingState
              eq_refl Hchanged') as ((Hname' & _) & _ & _ & _ & _ & Hquiet & _).
  split; [exact Hname|]. split.
  - apply Hsend. vm_compute. discriminate.
  - split; [exact Hname'|]. apply Hquiet; vm_compute; reflexivity.
Defined.

(** ** Failing lookups *)

(** The map and world-name lookups of the identity update decide nothing but
    the record's names: the loop's other variables and the number of
    transmissions are the same whatever they answer. *)
Lemma identity_lookups_do_not_steer `{Gw2Api} (g : Globals) (tk tk' : Tick)
    (st : LoopState) :
  sameButIdentityLookups tk tk' ->
  controlState (fst (loopIteration g tk' st))
  = controlState (fst (loopIteration g tk st))
  /\ List.length (snd (loopIteration g tk' st))
     = List.length (snd (loopIteration g tk st)).
Proof.
  unfold sameButIdentityLookups.
  destruct tk, tk'. cbn.
  intros (-> & -> & -> & -> & -> & -> & -> & -> & -> & -> & -> & -> & ->).
  unfold loopIteration, transmit, loopBody, rawOnline, linkGate, unlinkGate,
    offlineStamp, identityGate, positionGate, controlState.
  cbn.
  split; split_ifs; reflexivity.
Qed.

(** C6. On an online iteration whose identity changed: when the map lookup
    of the identity update fails the map name is [Map <id>], and when the
    world-name lookup fails or has no entry for the world id the world name
    is [World <id>]; the iteration goes on as with any other answer of the
    two lookups: the loop's other variables and the number of transmissions
    do not depend on them. *)
Theorem failed_lookup_falls_back `{Gw2Api} (g : Globals) (tk : Tick)
    (st : LoopState) :
  rawOnline tk = true ->
  identity_ne (getIdentity tk) (prevIdentity st) = true ->
  let i := gw2Info (fst (loopIteration g tk st)) in
  let n := getIdentity tk in
  (getMap_identity tk (map_id n) = None ->
   mapName i = "Map " ++ to_string (map_id n))
  /\ (getWorldNames tk = None
      \/ (exists names : gmap Z WorldNameEntry,
             getWorldNames tk = Some names /\ names !! world_id n = None) ->
      worldName i = "World " ++ to_string (world_id n))
  /\ (forall tk' : Tick,
         sameButIdentityLookups tk tk' ->
         controlState (fst (loopIteration g tk' st))
         = controlState (fst (loopIteration g tk st))
         /\ List.length (snd (loopIteration g tk' st))
            = List.length (snd (loopIteration g tk st))).
Proof.
  intros Hon Hid. cbv zeta.
  rewrite (online_record g tk st Hon).
  destruct (onlineRecord_after_identity_change tk st Hid)
    as (_ & _ & _ & Hmn & _ & _ & _ & _ & _ & Hwn & _).
  rewrite Hmn, Hwn, identityUpdate_world. split; [|split].
  - intros Hmap.
    apply (identityUpdate_map_missing tk (getIdentity tk) (gw2Info st) Hmap).
  - intros [Hnone | (names & Hsome & Hmiss)].
    + rewrite Hnone. reflexivity.
    + rewrite Hsome, Hmiss. reflexivity.
  - intros tk' Hsame. apply identity_lookups_do_not_steer, Hsame.
Qed.

Lemma failed_lookup_falls_back_witness :
  mapName (gw2Info (fst (loopIteration sampleGlobals relog walkingState)))
  = "Map 15"
  /\ worldName (gw2Info (fst (loopIteration sampleGlobals relog walkingState)))
     = "World 1001"
  /\ controlState
       (fst (loopIteration sampleGlobals
               (withIdentityLookups (fun _ => Some queensdale) None relog)
               walkingState))
     = controlState (fst (loopIteration sampleGlobals relog walkingState)).
Proof.
  assert (Hchanged : identity_ne (getIdentity relog) (prevIdentity walkingState)
                     = true) by (vm_compute; reflexivity).
  destruct (failed_lookup_falls_back sampleGlobals relog walkingState
              eq_refl Hchanged) as (Hmap & Hworld & Hsteer).
  split; [apply Hmap; reflexivity|].
  split; [apply Hworld; left; reflexivity|].
  apply Hsteer. unfold sameButIdentityLookups. cbn. repeat split.
Defined.

(** ** The continent position *)

Lemma onlineRecord_after_position_change `{Gw2Api} (tk : Tick)
    (st : LoopState) :
  vector3_ne (getAvatarPosition tk) (prevAvatarPosition st) = true ->
  let r := onlineRecord tk st in
  characterContinentPosition r
  = match getMap_position tk (mapId r) with
    | Some e => toContinentPosition (getAvatarPosition tk) (mapId r)
                  (map_rect e) (continent_rect e)
    | None => characterContinentPosition (gw2Info st)
    end.
Proof.
  intros Hmoved. cbv zeta. unfold onlineRecord. rewrite Hmoved.
  rewrite positionUpdate_position.
  destruct (positionUpdate_keeps tk (getAvatarPosition tk)
              (if identity_ne (getIdentity tk) (prevIdentity st)
               then identityUpdate tk (getIdentity tk) (gw2Info st)
               else gw2Info st)) as (_ & _ & -> & _).
  unfold continentPositionUpdate.
  destruct (identity_ne _ _); [|reflexivity].
  destruct (identityUpdate_identity tk (getIdentity tk) (gw2Info st))
    as (_ & _ & _ & _ & _ & _ & ->).
  reflexivity.
Qed.

(** C7, as the code has it. On an online iteration whose avatar position
    changed: when the map lookup for the record's map id fails, the record's
    continent position is the one it had before the iteration; when the
    lookup answers a map entry, the continent position is what the transform
    returns for that entry's rectangles, whatever the rectangles are. *)
Theorem failed_map_lookup_keeps_position `{Gw2Api} (g : Globals) (tk : Tick)
    (st : LoopState) :
  rawOnline tk = true ->
  vector3_ne (getAvatarPosition tk) (prevAvatarPosition st) = true ->
  let i := gw2Info (fst (loopIteration g tk st)) in
  (getMap_position tk (mapId i) = None ->
   characterContinentPosition i = characterContinentPosition (gw2Info st))
  /\ (forall e : MapEntry,
         getMap_position tk (mapId i) = Some e ->
         characterContinentPosition i
         = toContinentPosition (getAvatarPosition tk) (mapId i)
             (map_rect e) (continent_rect e)).
Proof.
  intros Hon Hmoved. cbv zeta.
  rewrite (online_record g tk st Hon).
  pose proof (onlineRecord_after_position_change tk st Hmoved) as Hpos.
  cbv zeta in Hpos. split.
  - intros Hmap. rewrite Hpos, Hmap. reflexivity.
  - intros e Hmap. rewrite Hpos, Hmap. reflexivity.
Qed.

Lemma failed_map_lookup_keeps_position_witness :
  characterContinentPosition
    (gw2Info (fst (loopIteration sampleGlobals walkBlind walkingState)))
  = characterContinentPosition (gw2Info walkingState).
Proof.
  assert (Hmoved : vector3_ne (getAvatarPosition walkBlind)
                     (prevAvatarPosition walkingState) = true)
    by (vm_compute; reflexivity).
  apply (failed_map_lookup_keeps_position sampleGlobals walkBlind walkingState
           eq_refl Hmoved).
  reflexivity.
Defined.

(** C7, as the claim states it, fails for a rectangle with no extent: the map
    lookup answers such an entry, and the record's continent position is
    overwritten with what the transform returns (here infinite coordinates)
    instead of keeping its previous value. *)
Lemma degenerate_rectangle_overwrites_position :
  degenerate (map_rect flatMap) = true
  /\ vector3_ne (getAvatarPosition walkFlat) (prevAvatarPosition walkingState)
     = true
  /\ getMap_position walkFlat (mapId (gw2Info walkingState)) = Some flatMap
  /\ characterContinentPosition (gw2Info walkingState) = mkVector2D 2 (-1)
  /\ characterContinentPosition
       (gw2Info (fst (loopIteration sampleGlobals walkFlat walkingState)))
     = mkVector2D infinity neg_infinity
  /\ characterContinentPosition
       (gw2Info (fst (loopIteration sampleGlobals walkFlat walkingState)))
     <> characterContinentPosition (gw2Info walkingState).
Proof.
  repeat split; try (vm_compute; reflexivity).
  intros Heq.
  apply (f_equal (fun v => PrimFloat.eqb (v2_x v) 2)) in Heq.
  vm_compute in Heq. discriminate.
Qed.

(** ** Session events and the cache *)

Lemma removeAll_evicts (sch : Z) (c : Gw2RemoteInfoContainer) (cid : Z) :
  removeAllRemoteGW2InfoRecords sch c !! (sch, cid) = None.
Proof.
  unfold removeAllRemoteGW2InfoRecords. apply map_lookup_filter_None.
  right. intros r _ Hkeep. apply Hkeep. reflexivity.
Qed.

Lemma removeAll_keeps_others (sch : Z) (c : Gw2RemoteInfoContainer)
    (s cid : Z) :
  s <> sch ->
  removeAllRemoteGW2InfoRecords sch c !! (s, cid) = c !! (s, cid).
Proof.
  intros Hother. unfold removeAllRemoteGW2InfoRecords.
  destruct (c !! (s, cid)) as [r|] eqn:Hlook.
  - apply map_lookup_filter_Some. split; [exact Hlook | exact Hother].
  - apply map_lookup_filter_None. left. exact Hlook.
Qed.

(** C4, as the code has it. A disconnect and a server stop evict every
    cached record of that connection and no record of another; a kick evicts
    the record under that connection and client and no other; none of them
    sends anything or changes the local record.  An established connection
    starts the plugin's update check and nothing else: no record is sent, and
    the cache and the local record are as before. *)
Theorem session_events_evict (sch : Z) (p : Plugin) :
  (forall err : Z,
      let r := ts3plugin_onConnectStatusChangeEvent sch STATUS_DISCONNECTED
                 err p in
      (forall cid : Z, gw2RemoteInfoContainer (fst r) !! (sch, cid) = None)
      /\ (forall s cid : Z,
             s <> sch ->
             gw2RemoteInfoContainer (fst r) !! (s, cid)
             = gw2RemoteInfoContainer p !! (s, cid))
      /\ plugin_gw2Info (fst r) = plugin_gw2Info p /\ snd r = [])
  /\ (let r := ts3plugin_onServerStopEvent sch p in
      (forall cid : Z, gw2RemoteInfoContainer (fst r) !! (sch, cid) = None)
      /\ (forall s cid : Z,
             s <> sch ->
             gw2RemoteInfoContainer (fst r) !! (s, cid)
             = gw2RemoteInfoContainer p !! (s, cid))
      /\ plugin_gw2Info (fst r) = plugin_gw2Info p /\ snd r = [])
  /\ (forall clientID : Z,
         let r := ts3plugin_onClientKickFromServerEvent sch clientID p in
         gw2RemoteInfoContainer (fst r) !! (sch, clientID) = None
         /\ (forall k : Z * Z,
                k <> (sch, clientID) ->
                gw2RemoteInfoContainer (fst r) !! k
                = gw2RemoteInfoContainer p !! k)
         /\ plugin_gw2Info (fst r) = plugin_gw2Info p /\ snd r = [])
  /\ (forall err : Z,
         ts3plugin_onConnectStatusChangeEvent sch
           STATUS_CONNECTION_ESTABLISHED err p
         = (p, [CheckForUpdates])).
Proof.
  repeat split; cbn.
  - intros cid. apply removeAll_evicts.
  - intros s cid Hother. apply removeAll_keeps_others, Hother.
  - intros cid. apply removeAll_evicts.
  - intros s cid Hother. apply removeAll_keeps_others, Hother.
  - unfold removeRemoteGW2InfoRecord. apply lookup_delete_eq.
  - intros k Hother. unfold removeRemoteGW2InfoRecord.
    apply lookup_delete_ne. congruence.
Qed.

Lemma session_events_evict_witness :
  gw2RemoteInfoContainer
    (fst (ts3plugin_onConnectStatusChangeEvent 1 STATUS_DISCONNECTED 0
            samplePlugin)) !! (1, 7) = None
  /\ gw2RemoteInfoContainer
       (fst (ts3plugin_onConnectStatusChangeEvent 1 STATUS_DISCONNECTED 0
               samplePlugin)) !! (2, 7)
     = gw2RemoteInfoContainer samplePlugin !! (2, 7).
Proof.
  destruct (session_events_evict 1 samplePlugin) as (Hdisc & _).
  destruct (Hdisc 0) as (Hgone & Hkept & _).
  split; [apply Hgone | apply Hkept; discriminate].
Defined.

(** The record of the other connection is indeed cached. *)
Example other_session_is_cached :
  gw2RemoteInfoContainer samplePlugin !! (2, 7) = Some (remote 2 7).
Proof.
  unfold samplePlugin, updateRemoteGW2Info. cbn.
  rewrite lookup_insert_ne by discriminate. apply lookup_insert_eq.
Qed.

(** C4, as the claim states it, fails: an established connection sends no
    presence record. *)
Lemma established_connection_sends_nothing :
  ts3plugin_onConnectStatusChangeEvent 1 STATUS_CONNECTION_ESTABLISHED 0
    samplePlugin = (samplePlugin, [CheckForUpdates])
  /\ existsb isSend
       (snd (ts3plugin_onConnectStatusChangeEvent 1
               STATUS_CONNECTION_ESTABLISHED 0 samplePlugin)) = false.
Proof. split; reflexivity. Qed.

(** ** Plugin commands *)

(** C8. A command whose kind is not recognised, or whose number of parameters
    is not the one its kind expects (two for a record, one for a request),
    changes nothing and sends nothing: the handler returns the plugin state
    it was given and no effect. *)
Theorem malformed_command_is_ignored `{CommandsApi} (currentID sch : Z)
    (pluginCommand : string) (p : Plugin) (commandType : CommandType)
    (commandParameters : list string) :
  parseCommand pluginCommand = (commandType, commandParameters) ->
  commandType = CMD_NONE \/ commandType = CMD_other
  \/ (commandType = CMD_GW2INFO /\ List.length commandParameters <> 2%nat)
  \/ (commandType = CMD_REQUESTGW2INFO
      /\ List.length commandParameters <> 1%nat) ->
  ts3plugin_onPluginCommandEvent currentID sch pluginCommand p = (p, []).
Proof.
  intros Hparse Hbad. unfold ts3plugin_onPluginCommandEvent.
  rewrite Hparse. unfold handleCommand.
  destruct Hbad as [-> | [-> | [[-> Hlen] | [-> Hlen]]]]; try reflexivity.
  - destruct commandParameters as [|a [|b [|c rest]]]; try reflexivity.
    exfalso. apply Hlen. reflexivity.
  - destruct commandParameters as [|a [|b rest]]; try reflexivity.
    exfalso. apply Hlen. reflexivity.
Qed.

Lemma malformed_command_is_ignored_witness :
  ts3plugin_onPluginCommandEvent 1 1 "Hello 7" samplePlugin = (samplePlugin, [])
  /\ ts3plugin_onPluginCommandEvent 1 1 "GW2Info 7" samplePlugin
     = (samplePlugin, [])
  /\ ts3plugin_onPluginCommandEvent 1 1 "RequestGW2Info 7 8" samplePlugin
     = (samplePlugin, []).
Proof.
  split; [|split].
  - apply (malformed_command_is_ignored 1 1 "Hello 7" samplePlugin
             CMD_NONE ["7"]); [reflexivity | left; reflexivity].
  - apply (malformed_command_is_ignored 1 1 "GW2Info 7" samplePlugin
             CMD_GW2INFO ["7"]); [reflexivity|].
    right. right. left. split; [reflexivity | discriminate].
  - apply (malformed_command_is_ignored 1 1 "RequestGW2Info 7 8" samplePlugin
             CMD_REQUESTGW2INFO ["7"; "8"]); [reflexivity|].
    right. right. right. split; [reflexivity | discriminate].
Defined.

(** C9. A request command with its one parameter is answered at once with one
    transmission of the local record, targeted at the client whose id the
    parameter spells and at no one else; the local record and the cache are
    as before. *)
Theorem request_is_answered_to_sender `{CommandsApi} (currentID sch : Z)
    (pluginCommand : string) (p : Plugin) (sender : string) :
  parseCommand pluginCommand = (CMD_REQUESTGW2INFO, [sender]) ->
  ts3plugin_onPluginCommandEvent currentID sch pluginCommand p
  = (p, [SendGW2Info sch (plugin_gw2Info p) PluginCommandTarget_CLIENT
           (Some (to_anyID (atoi sender)))]).
Proof.
  intros Hparse. unfold ts3plugin_onPluginCommandEvent.
  rewrite Hparse. reflexivity.
Qed.

Lemma request_is_answered_to_sender_witness :
  ts3plugin_onPluginCommandEvent 1 1 "RequestGW2Info 7" samplePlugin
  = (samplePlugin,
     [SendGW2Info 1 (plugin_gw2Info samplePlugin) PluginCommandTarget_CLIENT
        (Some 7)]).
Proof.
  apply (request_is_answered_to_sender 1 1 "RequestGW2Info 7" samplePlugin "7").
  reflexivity.
Defined.

(** * Further properties of the loop *)

(** ** The shape of single iterations *)

Section Shapes.
Context `{api : Gw2Api}.
Variables (g : Globals) (tk : Tick) (st : LoopState).

Lemma offline_iteration_quiet :
  rawOnline tk = false ->
  unlinkGate g tk st = false ->
  loopIteration g tk st
  = ({| lastTransmissionTime := lastTransmissionTime st;
        lastOffline := offlineStamp tk st;
        linked := linked st;
        prevIsOnline := false;
        prevIdentity := prevIdentity st;
        prevAvatarPosition := prevAvatarPosition st;
        prevDistancePosition := prevDistancePosition st;
        gw2Info := gw2Info st |}, []).
Proof.
  intros Hoff Hgate. unfold loopIteration.
  rewrite (loopBody_offline g tk st Hoff), Hgate. reflexivity.
Qed.

Lemma offline_iteration_unlinks :
  rawOnline tk = false ->
  unlinkGate g tk st = true ->
  loopIteration g tk st
  = ({| lastTransmissionTime := time_send tk;
        lastOffline := offlineStamp tk st;
        linked := false;
        prevIsOnline := false;
        prevIdentity := prevIdentity st;
        prevAvatarPosition := prevAvatarPosition st;
        prevDistancePosition := prevDistancePosition st;
        gw2Info := Gw2Info_clear |},
     [SendGW2Info (currentServerConnectionHandlerID tk) Gw2Info_clear
        PluginCommandTarget_SERVER None]).
Proof.
  intros Hoff Hgate. unfold loopIteration.
  rewrite (loopBody_offline g tk st Hoff), Hgate. reflexivity.
Qed.

Lemma online_iteration_quiet :
  rawOnline tk = true ->
  onlineUpdated g tk st = false ->
  loopIteration g tk st
  = ({| lastTransmissionTime := lastTransmissionTime st;
        lastOffline := 0;
        linked := if linkGate g tk st then true else linked st;
        prevIsOnline := true;
        prevIdentity := getIdentity tk;
        prevAvatarPosition := getAvatarPosition tk;
        prevDistancePosition :=
          if positionTriggers g tk st
          then toVector2D (getAvatarPosition tk)
          else prevDistancePosition st;
        gw2Info := onlineRecord tk st |}, []).
Proof.
  intros Hon Hquiet. unfold loopIteration.
  rewrite (loopBody_online g tk st Hon), Hquiet. reflexivity.
Qed.

End Shapes.

Lemma loop_app `{Gw2Api} (g : Globals) (before after : list Tick) :
  forall st : LoopState,
    mumbleLinkCheckLoop g (before ++ after) st
    = (fst (mumbleLinkCheckLoop g after
              (fst (mumbleLinkCheckLoop g before st))),
       (snd (mumbleLinkCheckLoop g before st)
        ++ snd (mumbleLinkCheckLoop g after
                  (fst (mumbleLinkCheckLoop g before st))))%list).
Proof.
  induction before as [|tk rest IH]; intros st.
  - cbn [app mumbleLinkCheckLoop fst snd].
    destruct (mumbleLinkCheckLoop g after st). reflexivity.
  - change ((tk :: rest) ++ after)%list with (tk :: (rest ++ after))%list.
    rewrite !loop_cons, IH. cbn [fst snd]. rewrite app_assoc. reflexivity.
Qed.

(** ** The nearest waypoint *)

(** X1. On an online iteration whose avatar position changed, the record's
    waypoint fields are those of the waypoint [getClosestWaypoint] answers for
    the record's continent position and map id: its id, its name (or
    [Waypoint <id>] when the name is empty) and its coordinate; when it
    answers none they are reset to zero, the empty name and the default
    position. *)
Theorem position_change_sets_waypoint `{Gw2Api} (g : Globals) (tk : Tick)
    (st : LoopState) :
  rawOnline tk = true ->
  vector3_ne (getAvatarPosition tk) (prevAvatarPosition st) = true ->
  let i := gw2Info (fst (loopIteration g tk st)) in
  (waypointId i, waypointName i, waypointContinentPosition i)
  = waypointFields
      (getClosestWaypoint tk (characterContinentPosition i) (mapId i)).
Proof.
  intros Hon Hmoved. cbv zeta.
  rewrite (online_record g tk st Hon). unfold onlineRecord. rewrite Hmoved.
  unfold positionUpdate.
  destruct (getClosestWaypoint tk _ _) as [w|] eqn:Hlook; cbn;
    rewrite Hlook; reflexivity.
Qed.

Lemma position_change_sets_waypoint_witness :
  waypointName
    (gw2Info (fst (loopIteration sampleGlobals
                     (withWaypoint (Some namelessWaypoint) walk2)
                     walkingState))) = "Waypoint 42"
  /\ waypointId
       (gw2Info (fst (loopIteration sampleGlobals walk2 walkingState))) = 0.
Proof.
  assert (Hmoved : vector3_ne (getAvatarPosition walk2)
                     (prevAvatarPosition walkingState) = true)
    by (vm_compute; reflexivity).
  pose proof (position_change_sets_waypoint sampleGlobals
                (withWaypoint (Some namelessWaypoint) walk2) walkingState
                eq_refl Hmoved) as Hnamed.
  pose proof (position_change_sets_waypoint sampleGlobals walk2 walkingState
                eq_refl Hmoved) as Hnone.
  cbv zeta in Hnamed, Hnone.
  split.
  - apply (f_equal (fun t => snd (fst t))) in Hnamed. exact Hnamed.
  - apply (f_equal (fun t => fst (fst t))) in Hnone. exact Hnone.
Defined.

(** ** Samples that change nothing *)

(** X2. A run of raw-online samples each of which has, by the two
    [operator!=], the identity and the avatar position of the sample before
    it transmits nothing and leaves the record, the time of the last
    transmission and the baseline as they were, whatever the times are: an
    update that was held back by a threshold is not sent later by itself. *)
Theorem idle_run_is_silent `{Gw2Api} (g : Globals) (ticks : list Tick) :
  forall st : LoopState,
    idleRun (prevIdentity st) (prevAvatarPosition st) ticks ->
    snd (mumbleLinkCheckLoop g ticks st) = []
    /\ gw2Info (fst (mumbleLinkCheckLoop g ticks st)) = gw2Info st
    /\ lastTransmissionTime (fst (mumbleLinkCheckLoop g ticks st))
       = lastTransmissionTime st
    /\ prevDistancePosition (fst (mumbleLinkCheckLoop g ticks st))
       = prevDistancePosition st.
Proof.
  induction ticks as [|tk rest IH]; intros st Hidle.
  - repeat split.
  - destruct Hidle as (Hon & Hid & Hpos & Hrest).
    assert (Hquiet : onlineUpdated g tk st = false).
    { unfold onlineUpdated, identityTriggers, positionTriggers.
      rewrite Hid, Hpos. reflexivity. }
    rewrite loop_cons, (online_iteration_quiet g tk st Hon Hquiet).
    cbn [fst snd app].
    match goal with
    | |- context [mumbleLinkCheckLoop g rest ?s] =>
        destruct (IH s Hrest) as (Hout & Hinfo & Htime & Hbase)
    end.
    rewrite Hout, Hinfo, Htime, Hbase. cbn.
    unfold onlineRecord, positionTriggers. rewrite Hid, Hpos.
    repeat split.
Qed.

Lemma idle_run_is_silent_witness :
  snd (mumbleLinkCheckLoop sampleGlobals
         [sample true (t0 + 100) bobIdentity (mkVector3D 8 0 8);
          sample true (t0 + 9999) bobIdentity (mkVector3D 8 0 8)]
         (fst (loopIteration sampleGlobals relog walkingState))) = []
  /\ lastTransmissionTime
       (fst (mumbleLinkCheckLoop sampleGlobals
               [sample true (t0 + 100) bobIdentity (mkVector3D 8 0 8);
                sample true (t0 + 9999) bobIdentity (mkVector3D 8 0 8)]
               (fst (loopIteration sampleGlobals relog walkingState))))
     = lastTransmissionTime
         (fst (loopIteration sampleGlobals relog walkingState)).
Proof.
  destruct (idle_run_is_silent sampleGlobals
              [sample true (t0 + 100) bobIdentity (mkVector3D 8 0 8);
               sample true (t0 + 9999) bobIdentity (mkVector3D 8 0 8)]
              (fst (loopIteration sampleGlobals relog walkingState)))
    as (Hout & _ & Htime & _).
  - cbn [idleRun]. repeat split; vm_compute; reflexivity.
  - split; [exact Hout | exact Htime].
Defined.

(** The record that was held back is Bob's, and the last record sent was
    Alice's. *)
Example held_back_update_is_lost :
  characterName
    (gw2Info (fst (loopIteration sampleGlobals relog walkingState))) = "Bob"
  /\ snd (loopIteration sampleGlobals relog walkingState) = []
  /\ characterName (gw2Info walkingState) = "Alice".
Proof. vm_compute. repeat split. Qed.

(** ** What the loop sends *)

Lemma iteration_only_broadcasts `{Gw2Api} (g : Globals) (tk : Tick)
    (st : LoopState) :
  forallb isBroadcast (snd (loopIteration g tk st)) = true
  /\ (List.length (snd (loopIteration g tk st)) <= 1)%nat.
Proof.
  rewrite iteration_effects.
  destruct (snd (loopBody g tk st)); cbn; split; auto.
Qed.

(** X3. Whatever the samples are, the loop sends nothing but presence
    records addressed to the whole server with no target client, and at most
    one per iteration. *)
Theorem loop_only_broadcasts `{Gw2Api} (g : Globals) (ticks : list Tick) :
  forall st : LoopState,
    forallb isBroadcast (snd (mumbleLinkCheckLoop g ticks st)) = true
    /\ (List.length (snd (mumbleLinkCheckLoop g ticks st))
        <= List.length ticks)%nat.
Proof.
  induction ticks as [|tk rest IH]; intros st.
  - split; [reflexivity | apply Nat.le_refl].
  - rewrite loop_cons. cbn [snd].
    destruct (iteration_only_broadcasts g tk st) as [Hall Hlen].
    destruct (IH (fst (loopIteration g tk st))) as [IHall IHlen].
    rewrite forallb_app, Hall, IHall, length_app. cbn [List.length].
    split; [reflexivity | lia].
Qed.

(** ** Offline periods *)

(** While the tracker is not linked, offline samples send nothing. *)
Lemma unlinked_offline_run_is_silent `{Gw2Api} (g : Globals)
    (ticks : list Tick) :
  forall st : LoopState,
    linked st = false ->
    forallb (fun t => negb (rawOnline t)) ticks = true ->
    snd (mumbleLinkCheckLoop g ticks st) = [].
Proof.
  induction ticks as [|tk rest IH]; intros st Hl Hall; [reflexivity|].
  cbn [forallb] in Hall. apply andb_prop in Hall as [Hoff Hrest].
  apply negb_true_iff in Hoff.
  assert (Hgate : unlinkGate g tk st = false)
    by (unfold unlinkGate; rewrite Hl; reflexivity).
  rewrite loop_cons, (offline_iteration_quiet g tk st Hoff Hgate).
  cbn [fst snd app]. apply IH; [exact Hl | exact Hrest].
Qed.

(** X4. However long an offline period lasts, the loop sends at most one
    record during it, and what it sends is the cleared record, to the whole
    server. *)
Theorem offline_run_sends_once `{Gw2Api} (g : Globals) (ticks : list Tick) :
  forall st : LoopState,
    forallb (fun t => negb (rawOnline t)) ticks = true ->
    (List.length (snd (mumbleLinkCheckLoop g ticks st)) <= 1)%nat
    /\ (forall e : Effect,
           In e (snd (mumbleLinkCheckLoop g ticks st)) ->
           isOfflineBroadcast e).
Proof.
  induction ticks as [|tk rest IH]; intros st Hall.
  - split; [cbn; lia | intros e []].
  - pose proof Hall as Hall'.
    cbn [forallb] in Hall. apply andb_prop in Hall as [Hoff Hrest].
    apply negb_true_iff in Hoff.
    rewrite loop_cons. cbn [snd].
    destruct (unlinkGate g tk st) eqn:Hgate.
    + rewrite (offline_iteration_unlinks g tk st Hoff Hgate). cbn [fst snd].
      rewrite unlinked_offline_run_is_silent; [|reflexivity | exact Hrest].
      split; [cbn; lia|].
      intros e [<- | []]. eexists. reflexivity.
    + rewrite (offline_iteration_quiet g tk st Hoff Hgate). cbn [fst snd app].
      apply IH, Hrest.
Qed.

Lemma offline_run_sends_once_witness :
  (List.length
     (snd (mumbleLinkCheckLoop sampleGlobals
             [away (t0 + 1); away (t0 + 6); away (t0 + 100); away (t0 + 200)]
             walkingState)) <= 1)%nat.
Proof.
  apply (offline_run_sends_once sampleGlobals
           [away (t0 + 1); away (t0 + 6); away (t0 + 100); away (t0 + 200)]
           walkingState).
  reflexivity.
Defined.

(** The one record of that period is sent by the second sample. *)
Example offline_period_sends_cleared_record :
  snd (mumbleLinkCheckLoop sampleGlobals
         [away (t0 + 1); away (t0 + 6); away (t0 + 100); away (t0 + 200)]
         walkingState)
  = [SendGW2Info 1 Gw2Info_clear PluginCommandTarget_SERVER None].
Proof. vm_compute. reflexivity. Qed.

(** Offline samples after an offline sample, each read less than the window
    after the remembered offline time, change nothing. *)
Lemma short_offline_tail `{Gw2Api} (g : Globals) (ticks : list Tick) :
  forall st : LoopState,
    prevIsOnline st = false ->
    forallb (fun t => negb (rawOnline t)) ticks = true ->
    Forall (fun t => time_unlink t - lastOffline st
                     < onlineStateTransmissionThreshold g) ticks ->
    mumbleLinkCheckLoop g ticks st = (st, []).
Proof.
  induction ticks as [|tk rest IH]; intros st Hprev Hall Hshort;
    [reflexivity|].
  cbn [forallb] in Hall. apply andb_prop in Hall as [Hoff Hrest].
  apply negb_true_iff in Hoff.
  inversion Hshort as [|? ? Hnow Hlater]; subst.
  assert (Hstamp : offlineStamp tk st = lastOffline st)
    by (unfold offlineStamp; rewrite Hprev; reflexivity).
  assert (Hgate : unlinkGate g tk st = false).
  { unfold unlinkGate. rewrite Hstamp, (leb_spec_false _ _ Hnow).
    apply andb_false_r. }
  rewrite loop_cons, (offline_iteration_quiet g tk st Hoff Hgate), Hstamp.
  cbn [fst snd app].
  assert (Hsame : {| lastTransmissionTime := lastTransmissionTime st;
                     lastOffline := lastOffline st;
                     linked := linked st;
                     prevIsOnline := false;
                     prevIdentity := prevIdentity st;
                     prevAvatarPosition := prevAvatarPosition st;
                     prevDistancePosition := prevDistancePosition st;
                     gw2Info := gw2Info st |} = st)
    by (destruct st; cbn in Hprev; subst; reflexivity).
  rewrite Hsame, (IH st Hprev Hrest Hlater). reflexivity.
Qed.

(** X5. An offline period that follows a raw-online sample and whose samples
    are all read less than [onlineStateTransmissionThreshold] after its first
    sample is invisible: nothing is sent, and the record, the linked flag,
    the remembered identity and position and the baseline are as before; only
    the offline time is remembered. *)
Theorem short_offline_period_is_invisible `{Gw2Api} (g : Globals)
    (off : Tick) (offs : list Tick) (st : LoopState) :
  prevIsOnline st = true ->
  forallb (fun t => negb (rawOnline t)) (off :: offs) = true ->
  Forall (fun t => time_unlink t - time_offline off
                   < onlineStateTransmissionThreshold g) (off :: offs) ->
  mumbleLinkCheckLoop g (off :: offs) st
  = ({| lastTransmissionTime := lastTransmissionTime st;
        lastOffline := time_offline off;
        linked := linked st;
        prevIsOnline := false;
        prevIdentity := prevIdentity st;
        prevAvatarPosition := prevAvatarPosition st;
        prevDistancePosition := prevDistancePosition st;
        gw2Info := gw2Info st |}, []).
Proof.
  intros Hprev Hall Hshort.
  cbn [forallb] in Hall. apply andb_prop in Hall as [Hoff Hrest].
  apply negb_true_iff in Hoff.
  inversion Hshort as [|? ? Hnow Hlater]; subst.
  assert (Hstamp : offlineStamp off st = time_offline off)
    by (unfold offlineStamp; rewrite Hprev; reflexivity).
  assert (Hgate : unlinkGate g off st = false).
  { unfold unlinkGate. rewrite Hstamp, (leb_spec_false _ _ Hnow).
    apply andb_false_r. }
  rewrite loop_cons, (offline_iteration_quiet g off st Hoff Hgate), Hstamp.
  cbn [fst snd app].
  rewrite short_offline_tail; [reflexivity | reflexivity | exact Hrest |].
  exact Hlater.
Qed.

Lemma short_offline_period_is_invisible_witness :
  snd (mumbleLinkCheckLoop sampleGlobals
         [away (t0 + 1); away (t0 + 3); away (t0 + 5)] walkingState) = []
  /\ gw2Info
       (fst (mumbleLinkCheckLoop sampleGlobals
               [away (t0 + 1); away (t0 + 3); away (t0 + 5)] walkingState))
     = gw2Info walkingState.
Proof.
  rewrite (short_offline_period_is_invisible sampleGlobals (away (t0 + 1))
             [away (t0 + 3); away (t0 + 5)] walkingState).
  - split; reflexivity.
  - reflexivity.
  - reflexivity.
  - repeat constructor.
Defined.

(** ** Linking under a clock that does not run backwards *)

Lemma earliest_bounds (tk : Tick) :
  earliest tk <= time_link tk /\ earliest tk <= time_unlink tk
  /\ earliest tk <= latest tk /\ time_unlink tk <= latest tk.
Proof. unfold earliest, latest. lia. Qed.

Lemma linkReady_step `{Gw2Api} (g : Globals) (lo : Z) (tk : Tick)
    (st : LoopState) :
  linkReady g lo st ->
  lo <= earliest tk ->
  linkReady g (latest tk) (fst (loopIteration g tk st))
  /\ (rawOnline tk = true -> linked (fst (loopIteration g tk st)) = true).
Proof.
  intros Hready Hlo.
  destruct (earliest_bounds tk) as (Hlink & Hunlink & Hspan & Hlate).
  destruct (rawOnline tk) eqn:Hraw.
  - assert (Hl : linked (fst (loopIteration g tk st)) = true).
    { rewrite iteration_linked, Hraw. unfold linkGate.
      destruct Hready as [Hl | [Hprev Hwin]].
      - rewrite Hl. destruct (_ && _); reflexivity.
      - rewrite Hprev, leb_spec_true by lia. reflexivity. }
    split; [left; exact Hl | intros _; exact Hl].
  - split; [|discriminate].
    destruct (unlinkGate g tk st) eqn:Hgate.
    + rewrite (offline_iteration_unlinks g tk st Hraw Hgate). right. cbn.
      split; [reflexivity|].
      unfold unlinkGate in Hgate. apply andb_prop in Hgate as [_ Hgate].
      apply Z.leb_le in Hgate. lia.
    + rewrite (offline_iteration_quiet g tk st Hraw Hgate).
      destruct Hready as [Hl | [Hprev Hwin]]; [left; exact Hl | right].
      cbn. split; [reflexivity|].
      unfold offlineStamp. rewrite Hprev. lia.
Qed.

Lemma linkReady_run `{Gw2Api} (g : Globals) (ticks : list Tick) :
  forall (lo : Z) (st : LoopState),
    linkReady g lo st ->
    clockFrom lo ticks ->
    exists hi : Z,
      linkReady g hi (fst (mumbleLinkCheckLoop g ticks st))
      /\ forall rest : list Tick,
           clockFrom lo (ticks ++ rest) -> clockFrom hi rest.
Proof.
  induction ticks as [|tk more IH]; intros lo st Hready Hclock.
  - exists lo. split; [exact Hready | intros rest Hrest; exact Hrest].
  - destruct Hclock as [Hlo Hmore].
    destruct (linkReady_step g lo tk st Hready Hlo) as [Hnext _].
    destruct (IH _ _ Hnext Hmore) as (hi & Hhi & Hcont).
    exists hi. rewrite loop_cons. cbn [fst]. split; [exact Hhi|].
    intros rest [_ Hrest]. apply Hcont, Hrest.
Qed.

(** X6. From the state at loop entry, with a clock that does not run
    backwards and starts at least [onlineStateTransmissionThreshold] past
    zero, the tracker is linked after every raw-online sample: coming online
    is never delayed by the window. *)
Theorem linked_after_every_online_sample `{Gw2Api} (g : Globals) (lo : Z)
    (ticks : list Tick) (tk : Tick) (identity0 : MumbleIdentity)
    (position0 : Vector3D) (info0 : Gw2Info) :
  onlineStateTransmissionThreshold g <= lo ->
  clockFrom lo (ticks ++ [tk]) ->
  rawOnline tk = true ->
  linked (fst (mumbleLinkCheckLoop g (ticks ++ [tk])
                 (initialState identity0 position0 info0))) = true.
Proof.
  intros Hwin Hclock Hon.
  assert (Hstart : linkReady g lo (initialState identity0 position0 info0)).
  { right. cbn. split; [reflexivity | lia]. }
  assert (Hprefix : clockFrom lo ticks).
  { clear -Hclock. revert lo Hclock.
    induction ticks as [|t more IH]; intros lo Hclock; [exact I|].
    destruct Hclock as [Hlo Hmore]. split; [exact Hlo | apply IH, Hmore]. }
  destruct (linkReady_run g ticks lo _ Hstart Hprefix) as (hi & Hhi & Hcont).
  destruct (Hcont [tk] Hclock) as [Hlast _].
  rewrite loop_app. cbn [fst]. rewrite loop_cons. cbn [fst mumbleLinkCheckLoop].
  apply (linkReady_step g hi tk _ Hhi Hlast), Hon.
Qed.

Lemma linked_after_every_online_sample_witness :
  linked
    (fst (mumbleLinkCheckLoop sampleGlobals
            ([away t0; sample true (t0 + 1) aliceIdentity origin;
              away (t0 + 2); away (t0 + 3)]
             ++ [sample true (t0 + 4) aliceIdentity origin])
            (initialState noIdentity origin Gw2Info_clear))) = true.
Proof.
  apply (linked_after_every_online_sample sampleGlobals t0).
  - vm_compute. discriminate.
  - cbn [app clockFrom]. repeat split; vm_compute; discriminate.
  - reflexivity.
Defined.

(** ** The time threshold *)

(** X7. While less than [locationTransmissionThreshold] has passed since the
    last transmission, raw-online samples send nothing, whatever identities
    and positions they carry, and the time of the last transmission stays. *)
Theorem online_burst_is_suppressed `{Gw2Api} (g : Globals)
    (ticks : list Tick) :
  forall st : LoopState,
    Forall (fun tk =>
              rawOnline tk = true
              /\ time_identity tk - lastTransmissionTime st
                 < locationTransmissionThreshold g
              /\ time_position tk - lastTransmissionTime st
                 < locationTransmissionThreshold g) ticks ->
    snd (mumbleLinkCheckLoop g ticks st) = []
    /\ lastTransmissionTime (fst (mumbleLinkCheckLoop g ticks st))
       = lastTransmissionTime st.
Proof.
  induction ticks as [|tk rest IH]; intros st Hearly; [split; reflexivity|].
  inversion Hearly as [|? ? (Hon & Hid & Hpos) Hrest]; subst.
  assert (Hquiet : onlineUpdated g tk st = false).
  { unfold onlineUpdated, identityTriggers, positionTriggers, identityGate,
      positionGate.
    rewrite (leb_spec_false _ _ Hid), (leb_spec_false _ _ Hpos).
    rewrite !andb_false_r. reflexivity. }
  rewrite loop_cons, (online_iteration_quiet g tk st Hon Hquiet).
  cbn [fst snd app].
  match goal with
  | |- context [mumbleLinkCheckLoop g rest ?s] =>
      destruct (IH s) as [Hout Htime]; [exact Hrest|]
  end.
  rewrite Hout, Htime. split; reflexivity.
Qed.

Lemma online_burst_is_suppressed_witness :
  snd (mumbleLinkCheckLoop sampleGlobals
         [relog; sample true (t0 + 3) bobIdentity (mkVector3D 80 0 8);
          sample true (t0 + 4) aliceIdentity (mkVector3D 8 0 80)]
         walkingState) = [].
Proof.
  apply (online_burst_is_suppressed sampleGlobals
           [relog; sample true (t0 + 3) bobIdentity (mkVector3D 80 0 8);
            sample true (t0 + 4) aliceIdentity (mkVector3D 8 0 80)]
           walkingState).
  repeat constructor.
Defined.

(** ** What an identity change leaves alone *)

(** X8. On an online iteration whose avatar position did not change, the
    record's continent position and its three waypoint fields are as before,
    also when the identity (and with it the map) changed. *)
Theorem unchanged_position_keeps_location `{Gw2Api} (g : Globals) (tk : Tick)
    (st : LoopState) :
  rawOnline tk = true ->
  vector3_ne (getAvatarPosition tk) (prevAvatarPosition st) = false ->
  let i := gw2Info (fst (loopIteration g tk st)) in
  characterContinentPosition i = characterContinentPosition (gw2Info st)
  /\ waypointId i = waypointId (gw2Info st)
  /\ waypointName i = waypointName (gw2Info st)
  /\ waypointContinentPosition i = waypointContinentPosition (gw2Info st).
Proof.
  intros Hon Hstill. cbv zeta.
  rewrite (online_record g tk st Hon). unfold onlineRecord. rewrite Hstill.
  destruct (identity_ne _ _); [|repeat split].
  unfold identityUpdate. destruct (getMap_identity tk _); cbn; repeat split.
Qed.

Lemma unchanged_position_keeps_location_witness :
  mapId (gw2Info (fst (loopIteration sampleGlobals mapChange walkingState)))
  = 18
  /\ mapId (gw2Info walkingState) = 15
  /\ characterContinentPosition
       (gw2Info (fst (loopIteration sampleGlobals mapChange walkingState)))
     = characterContinentPosition (gw2Info walkingState).
Proof.
  assert (Hstill : vector3_ne (getAvatarPosition mapChange)
                     (prevAvatarPosition walkingState) = false)
    by (vm_compute; reflexivity).
  split; [vm_compute; reflexivity|]. split; [vm_compute; reflexivity|].
  apply (unchanged_position_keeps_location sampleGlobals mapChange
           walkingState eq_refl Hstill).
Defined.

(** * Further properties of the callbacks *)

(** ** Records received from other clients *)

Lemma record_command_result `{CommandsApi} (currentID sch : Z)
    (pluginCommand : string) (p : Plugin) (sender json : string) :
  parseCommand pluginCommand = (CMD_GW2INFO, [sender; json]) ->
  ts3plugin_onPluginCommandEvent currentID sch pluginCommand p
  = (setContainer
       (<[(sch, to_anyID (atoi sender)) :=
            mkGw2RemoteInfo (Gw2Info_fromJson json) sch
              (to_anyID (atoi sender))]> (gw2RemoteInfoContainer p)) p,
     updateInfoPanel currentID p).
Proof.
  intros Hparse. unfold ts3plugin_onPluginCommandEvent. rewrite Hparse.
  reflexivity.
Qed.

(** X9. A record command with its two parameters stores the decoded record
    under the connection it arrived on and the client id its first parameter
    spells, replaces what was stored there, and leaves every other entry,
    the local record and the displayed item alone.  It sends no record; it
    asks the client for an info update exactly when an item with a positive
    type and a positive id is displayed, and then for that item on the
    current connection, whoever the record came from. *)
Theorem record_command_is_cached `{CommandsApi} (currentID sch : Z)
    (pluginCommand : string) (p : Plugin) (sender json : string) :
  parseCommand pluginCommand = (CMD_GW2INFO, [sender; json]) ->
  let r := ts3plugin_onPluginCommandEvent currentID sch pluginCommand p in
  gw2RemoteInfoContainer (fst r) !! (sch, to_anyID (atoi sender))
  = Some (mkGw2RemoteInfo (Gw2Info_fromJson json) sch (to_anyID (atoi sender)))
  /\ (forall k : Z * Z,
         k <> (sch, to_anyID (atoi sender)) ->
         gw2RemoteInfoContainer (fst r) !! k = gw2RemoteInfoContainer p !! k)
  /\ plugin_gw2Info (fst r) = plugin_gw2Info p
  /\ infoDataType (fst r) = infoDataType p
  /\ infoDataId (fst r) = infoDataId p
  /\ snd r
     = (if (0 <? infoDataType p) && (0 <? infoDataId p)
        then [RequestInfoUpdate currentID (infoDataType p) (infoDataId p)]
        else [])
  /\ existsb isSend (snd r) = false.
Proof.
  intros Hparse. cbv zeta.
  rewrite (record_command_result currentID sch pluginCommand p sender json
             Hparse).
  cbn [fst snd setContainer gw2RemoteInfoContainer plugin_gw2Info infoDataType
         infoDataId].
  split; [apply lookup_insert_eq|].
  split; [intros k Hother; apply lookup_insert_ne; congruence|].
  unfold updateInfoPanel. repeat split.
  destruct (_ && _); reflexivity.
Qed.

Lemma record_command_is_cached_witness :
  gw2RemoteInfoContainer
    (fst (ts3plugin_onPluginCommandEvent 1 2 "GW2Info 9 {}" samplePlugin))
  !! (2, 9) = Some (mkGw2RemoteInfo Gw2Info_clear 2 9)
  /\ snd (ts3plugin_onPluginCommandEvent 1 2 "GW2Info 9 {}" samplePlugin) = [].
Proof.
  assert (Hparse : parseCommand "GW2Info 9 {}" = (CMD_GW2INFO, ["9"; "{}"]))
    by reflexivity.
  destruct (record_command_is_cached 1 2 "GW2Info 9 {}" samplePlugin "9" "{}"
              Hparse) as (Hstored & _ & _ & _ & _ & Hout & _).
  split; [exact Hstored | exact Hout].
Defined.

(** X10. A record received from a client is gone after that client is kicked
    on that connection, after that connection is disconnected and after its
    server stops; it is still there after a kick of another client or the
    disconnect of another connection; and a second record from the same
    client takes the place of the first. *)
Theorem received_record_lifetime `{CommandsApi} (currentID sch : Z)
    (pluginCommand : string) (p : Plugin) (sender json : string) :
  parseCommand pluginCommand = (CMD_GW2INFO, [sender; json]) ->
  let cid := to_anyID (atoi sender) in
  let received := mkGw2RemoteInfo (Gw2Info_fromJson json) sch cid in
  let p1 := fst (ts3plugin_onPluginCommandEvent currentID sch pluginCommand p) in
  gw2RemoteInfoContainer
    (fst (ts3plugin_onClientKickFromServerEvent sch cid p1)) !! (sch, cid)
  = None
  /\ (forall err : Z,
         gw2RemoteInfoContainer
           (fst (ts3plugin_onConnectStatusChangeEvent sch STATUS_DISCONNECTED
                   err p1)) !! (sch, cid) = None)
  /\ gw2RemoteInfoContainer (fst (ts3plugin_onServerStopEvent sch p1))
     !! (sch, cid) = None
  /\ (forall sch' cid' : Z,
         (sch', cid') <> (sch, cid) ->
         gw2RemoteInfoContainer
           (fst (ts3plugin_onClientKickFromServerEvent sch' cid' p1))
         !! (sch, cid) = Some received)
  /\ (forall sch' err : Z,
         sch' <> sch ->
         gw2RemoteInfoContainer
           (fst (ts3plugin_onConnectStatusChangeEvent sch' STATUS_DISCONNECTED
                   err p1)) !! (sch, cid) = Some received)
  /\ (forall (other json' : string),
         parseCommand other = (CMD_GW2INFO, [sender; json']) ->
         gw2RemoteInfoContainer
           (fst (ts3plugin_onPluginCommandEvent currentID sch other p1))
         !! (sch, cid)
         = Some (mkGw2RemoteInfo (Gw2Info_fromJson json') sch cid)).
Proof.
  intros Hparse. cbv zeta.
  rewrite (record_command_result currentID sch pluginCommand p sender json
             Hparse).
  cbn [fst ts3plugin_onClientKickFromServerEvent
         ts3plugin_onConnectStatusChangeEvent ts3plugin_onServerStopEvent
         setContainer gw2RemoteInfoContainer].
  split; [apply lookup_delete_eq|].
  split; [intros err; apply removeAll_evicts|].
  split; [apply removeAll_evicts|].
  split.
  { intros sch' cid' Hother. unfold removeRemoteGW2InfoRecord.
    rewrite lookup_delete_ne by exact Hother. apply lookup_insert_eq. }
  split.
  { intros sch' err Hother.
    rewrite removeAll_keeps_others by congruence. apply lookup_insert_eq. }
  intros other json' Hparse'.
  rewrite (record_command_result currentID sch other _ sender json' Hparse').
  cbn [fst setContainer gw2RemoteInfoContainer]. apply lookup_insert_eq.
Qed.

Lemma received_record_lifetime_witness :
  gw2RemoteInfoContainer
    (fst (ts3plugin_onClientKickFromServerEvent 2 9
            (fst (ts3plugin_onPluginCommandEvent 1 2 "GW2Info 9 {}"
                    samplePlugin)))) !! (2, 9) = None
  /\ gw2RemoteInfoContainer
       (fst (ts3plugin_onConnectStatusChangeEvent 1 STATUS_DISCONNECTED 0
               (fst (ts3plugin_onPluginCommandEvent 1 2 "GW2Info 9 {}"
                       samplePlugin)))) !! (2, 9)
     = Some (mkGw2RemoteInfo Gw2Info_clear 2 9).
Proof.
  assert (Hparse : parseCommand "GW2Info 9 {}" = (CMD_GW2INFO, ["9"; "{}"]))
    by reflexivity.
  destruct (received_record_lifetime 1 2 "GW2Info 9 {}" samplePlugin "9" "{}"
              Hparse) as (Hkick & _ & _ & _ & Hother & _).
  split; [exact Hkick | apply Hother; discriminate].
Defined.

(** ** The info panel *)



(** X12. After an item with a positive type and a positive id was displayed,
    every record command with its two parameters asks for an info update of
    exactly that item on the current connection; after a server item (type
    zero) was displayed it asks for nothing. *)
Theorem received_record_refreshes_displayed_item `{CommandsApi}
    (getInfoData : Gw2RemoteInfoContainer -> Z -> Z -> Z -> option string)
    (currentID sch sch' clientID itemType : Z) (pluginCommand : string)
    (p : Plugin) (sender json : string) :
  parseCommand pluginCommand = (CMD_GW2INFO, [sender; json]) ->
  let shown :=
    fst (fst (ts3plugin_infoData getInfoData sch' clientID itemType p)) in
  (0 < itemType -> 0 < clientID ->
   snd (ts3plugin_onPluginCommandEvent currentID sch pluginCommand shown)
   = [RequestInfoUpdate currentID itemType clientID])
  /\ (itemType = PLUGIN_SERVER ->
      snd (ts3plugin_onPluginCommandEvent currentID sch pluginCommand shown)
      = []).
Proof.
  intros Hparse. cbv zeta.
  rewrite (record_command_result currentID sch pluginCommand _ sender json
             Hparse).
  unfold ts3plugin_infoData, updateInfoPanel.
  cbn [fst snd setInfoData infoDataType infoDataId].
  split.
  - intros Htype Hid.
    rewrite (proj2 (Z.ltb_lt _ _) Htype), (proj2 (Z.ltb_lt _ _) Hid).
    reflexivity.
  - intros ->. reflexivity.
Qed.

Lemma received_record_refreshes_displayed_item_witness :
  snd (ts3plugin_onPluginCommandEvent 1 2 "GW2Info 9 {}"
         (fst (fst (ts3plugin_infoData nameOfClient 1 7 PLUGIN_CLIENT
                      samplePlugin))))
  = [RequestInfoUpdate 1 PLUGIN_CLIENT 7].
Proof.
  assert (Hparse : parseCommand "GW2Info 9 {}" = (CMD_GW2INFO, ["9"; "{}"]))
    by reflexivity.
  apply (received_record_refreshes_displayed_item nameOfClient 1 2 1 7
           PLUGIN_CLIENT "GW2Info 9 {}" samplePlugin "9" "{}" Hparse);
    reflexivity.
Defined.

(** ** The update check *)

(** X13. Update checks entered less than an hour after the time of the last
    completed check do nothing: no message, and the time stays. *)
Theorem update_checks_wait_an_hour (cs : list UpdateCheck) (last : Z) :
  Forall (fun c => time_entry c - last < 3600) cs ->
  updateChecks cs last = (last, []).
Proof.
  induction cs as [|c rest IH]; intros Hearly; [reflexivity|].
  inversion Hearly as [|? ? Hnow Hlater]; subst.
  cbn [updateChecks]. unfold checkForUpdatesAsync.
  rewrite (leb_spec_false _ _ Hnow), (IH Hlater). reflexivity.
Qed.

Lemma update_checks_wait_an_hour_witness :
  updateChecks [foundUpdate (t0 + 10); brokenCheck (t0 + 3599)] t0 = (t0, []).
Proof.
  apply (update_checks_wait_an_hour
           [foundUpdate (t0 + 10); brokenCheck (t0 + 3599)] t0).
  repeat constructor.
Defined.

(** X14. An update check that throws does not record its time: entered an
    hour or more after the last completed check, a run of checks that all
    throw prints the error message once per check and leaves the time of the
    last completed check as it was. *)
Theorem failing_update_checks_repeat (cs : list UpdateCheck) (last : Z) :
  Forall (fun c => 3600 <= time_entry c - last /\ checkForUpdate c = None) cs ->
  updateChecks cs last
  = (last,
     repeat "Error while checking for Guild Wars 2 plugin updates."
       (List.length cs)).
Proof.
  induction cs as [|c rest IH]; intros Hfail; [reflexivity|].
  inversion Hfail as [|? ? [Hnow Hthrow] Hlater]; subst.
  cbn [updateChecks]. unfold checkForUpdatesAsync.
  rewrite (leb_spec_true _ _ Hnow), Hthrow, (IH Hlater). reflexivity.
Qed.

Lemma failing_update_checks_repeat_witness :
  updateChecks [brokenCheck (t0 + 3600); brokenCheck (t0 + 3601)] t0
  = (t0,
     ["Error while checking for Guild Wars 2 plugin updates.";
      "Error while checking for Guild Wars 2 plugin updates."]).
Proof.
  apply (failing_update_checks_repeat
           [brokenCheck (t0 + 3600); brokenCheck (t0 + 3601)] t0).
  constructor; [split; [vm_compute; discriminate | reflexivity]|].
  constructor; [split; [vm_compute; discriminate | reflexivity]|].
  constructor.
Defined.

(** X15. An update check entered an hour or more after the last completed
    one, and that does not throw, records the time it reads at its end and
    prints the download message exactly when a new version was found; the
    checks entered less than an hour after that recorded time do nothing. *)
Theorem completed_update_check_silences_the_hour (c : UpdateCheck)
    (cs : list UpdateCheck) (last : Z) (found : option (string * string)) :
  3600 <= time_entry c - last ->
  checkForUpdate c = Some found ->
  Forall (fun c' => time_entry c' - time_stamp c < 3600) cs ->
  updateChecks (c :: cs) last
  = (time_stamp c,
     match found with
     | Some (version, url) =>
         ["[color=blue]Guild Wars 2 plugin version " ++ version
          ++ " is now available.[/color] " ++ "[url=" ++ url
          ++ "]Click here to download.[/url]"]
     | None => []
     end).
Proof.
  intros Hdue Hdone Hearly.
  cbn [updateChecks]. unfold checkForUpdatesAsync.
  rewrite (leb_spec_true _ _ Hdue), Hdone.
  destruct found as [[version url]|];
    rewrite (update_checks_wait_an_hour cs _ Hearly); reflexivity.
Qed.

Lemma completed_update_check_silences_the_hour_witness :
  updateChecks [foundUpdate (t0 + 3600); foundUpdate (t0 + 3700)] t0
  = (t0 + 3601,
     ["[color=blue]Guild Wars 2 plugin version 1.2 is now available.[/color] [url=http://example.org/gw2]Click here to download.[/url]"]).
Proof.
  apply (completed_update_check_silences_the_hour (foundUpdate (t0 + 3600))
           [foundUpdate (t0 + 3700)] t0
           (Some ("1.2", "http://example.org/gw2"))).
  - vm_compute. discriminate.
  - reflexivity.
  - repeat constructor.
Defined.

(** * Coming back after an offline period *)

(** Offline samples leave the remembered identity, avatar position and
    baseline as they were, also when the tracker unlinks. *)
Lemma offline_run_keeps_memory `{Gw2Api} (g : Globals) (offs : list Tick) :
  forall st : LoopState,
    forallb (fun t => negb (rawOnline t)) offs = true ->
    prevIdentity (fst (mumbleLinkCheckLoop g offs st)) = prevIdentity st
    /\ prevAvatarPosition (fst (mumbleLinkCheckLoop g offs st))
       = prevAvatarPosition st
    /\ prevDistancePosition (fst (mumbleLinkCheckLoop g offs st))
       = prevDistancePosition st.
Proof.
  induction offs as [|tk rest IH]; intros st Hall; [repeat split|].
  cbn [forallb] in Hall. apply andb_prop in Hall as [Hoff Hrest].
  apply negb_true_iff in Hoff.
  rewrite loop_cons. cbn [fst].
  destruct (IH (fst (loopIteration g tk st)) Hrest) as (-> & -> & ->).
  destruct (unlinkGate g tk st) eqn:Hgate.
  - rewrite (offline_iteration_unlinks g tk st Hoff Hgate). repeat split.
  - rewrite (offline_iteration_quiet g tk st Hoff Hgate). repeat split.
Qed.

(** X16. An offline period, whether or not the tracker unlinked and cleared
    the record during it, does not reset the remembered identity and
    position.  So when the first raw-online sample after it carries, by
    [operator!=], the identity seen before the period, the record's twelve
    identity, map and world fields are not repopulated: they stay what they
    were at the end of the period; and when the avatar position is the one
    seen before as well, the whole record stays and that sample sends
    nothing. *)
Theorem returning_identity_is_not_repopulated `{Gw2Api} (g : Globals)
    (offs : list Tick) (tk : Tick) (st : LoopState) :
  forallb (fun t => negb (rawOnline t)) offs = true ->
  rawOnline tk = true ->
  identity_ne (getIdentity tk) (prevIdentity st) = false ->
  identityFields (gw2Info (fst (mumbleLinkCheckLoop g (offs ++ [tk]) st)))
  = identityFields (gw2Info (fst (mumbleLinkCheckLoop g offs st)))
  /\ (vector3_ne (getAvatarPosition tk) (prevAvatarPosition st) = false ->
      gw2Info (fst (mumbleLinkCheckLoop g (offs ++ [tk]) st))
      = gw2Info (fst (mumbleLinkCheckLoop g offs st))
      /\ snd (mumbleLinkCheckLoop g (offs ++ [tk]) st)
         = snd (mumbleLinkCheckLoop g offs st)).
Proof.
  intros Hall Hon Hid.
  destruct (offline_run_keeps_memory g offs st Hall) as (Hpid & Hppos & _).
  rewrite loop_app. cbn [fst snd]. rewrite loop_cons.
  cbn [fst snd mumbleLinkCheckLoop]. rewrite app_nil_r.
  set (st1 := fst (mumbleLinkCheckLoop g offs st)) in *.
  rewrite (online_record g tk st1 Hon), (online_effects g tk st1 Hon).
  unfold onlineRecord, onlineUpdated, identityTriggers, positionTriggers.
  rewrite Hpid, Hppos, Hid. cbn [andb orb].
  split.
  - destruct (vector3_ne _ _); [|reflexivity].
    unfold identityFields.
    destruct (positionUpdate_keeps tk (getAvatarPosition tk) (gw2Info st1))
      as (-> & -> & -> & -> & -> & -> & -> & -> & -> & -> & -> & ->).
    reflexivity.
  - intros Hstill. rewrite Hstill. cbn [andb]. rewrite app_nil_r.
    split; reflexivity.
Qed.

Lemma returning_identity_is_not_repopulated_witness :
  gw2Info
    (fst (mumbleLinkCheckLoop sampleGlobals
            ([away (t0 + 1); away (t0 + 6)] ++ [standing (t0 + 100)])
            walkingState)) = Gw2Info_clear
  /\ snd (mumbleLinkCheckLoop sampleGlobals
            ([away (t0 + 1); away (t0 + 6)] ++ [standing (t0 + 100)])
            walkingState)
     = [SendGW2Info 1 Gw2Info_clear PluginCommandTarget_SERVER None].
Proof.
  assert (Hid : identity_ne (getIdentity (standing (t0 + 100)))
                  (prevIdentity walkingState) = false)
    by (vm_compute; reflexivity).
  assert (Hstill : vector3_ne (getAvatarPosition (standing (t0 + 100)))
                     (prevAvatarPosition walkingState) = false)
    by (vm_compute; reflexivity).
  destruct (returning_identity_is_not_repopulated sampleGlobals
              [away (t0 + 1); away (t0 + 6)] (standing (t0 + 100))
              walkingState eq_refl eq_refl Hid) as [_ Hsame].
  destruct (Hsame Hstill) as [Hrecord Hout].
  split.
  - rewrite Hrecord. vm_compute. reflexivity.
  - rewrite Hout. vm_compute. reflexivity.
Defined.
